(** * poppen-backend-admin: error normalisation and live-update fan-out

  A shallow embedding of
  - [src/middleware/errorHandler.js] (the [APIError] class, the
    per-source formatters and the [errorHandler] middleware),
  - the [validateRequest] middleware and the document routes of
    [routes/firestore.js],
  - the Socket.IO handlers of [server.js] ([setupSocketIO]) together
    with the room operations of the Socket.IO in-memory adapter they
    call,
  followed by the properties the specification states about them. *)

From Stdlib Require Import ZArith Ascii String List Bool DecimalString.
From stdpp Require Import gmap strings list.
Import ListNotations.

Set Warnings "-register-all,-clear-no-such-hyp".

Local Open Scope string_scope.
Local Open Scope Z_scope.

(* ===================================================================== *)
(** ** JavaScript values                                                   *)
(* ===================================================================== *)

Module Js.

(** The JSON-like values that travel through the handlers: property
    values of error objects and the bodies handed to [res.json]. An
    object is its property list in insertion order. *)
Inductive JsVal : Type :=
| JUndefined
| JNull
| JBool (b : bool)
| JNum (n : Z)
| JStr (s : string)
| JArr (items : list JsVal)
| JObj (fields : list (string * JsVal)).

(** ToBoolean. *)
Definition truthy (v : JsVal) : bool :=
  match v with
  | JUndefined | JNull => false
  | JBool b => b
  | JNum n => negb (n =? 0)
  | JStr s => negb (String.eqb s "")
  | JArr _ | JObj _ => true
  end.

(** [a || b] on values. *)
Definition or_else (a b : JsVal) : JsVal := if truthy a then a else b.

(** Property read [o.k] on an object value; reading a property an
    object does not have gives [undefined]. *)
Fixpoint assoc (k : string) (fields : list (string * JsVal)) : JsVal :=
  match fields with
  | [] => JUndefined
  | (k', v) :: rest => if String.eqb k k' then v else assoc k rest
  end.

Definition getProp (k : string) (o : JsVal) : JsVal :=
  match o with
  | JObj fields => assoc k fields
  | _ => JUndefined
  end.

(** The own keys of an object value, in order. *)
Definition keys (o : JsVal) : list string :=
  match o with
  | JObj fields => map fst fields
  | _ => []
  end.

(** [String.prototype.includes]. *)
Fixpoint includes (needle hay : string) : bool :=
  String.prefix needle hay ||
  match hay with
  | EmptyString => false
  | String _ rest => includes needle rest
  end.

(** [String.prototype.startsWith]. *)
Definition startsWith (pre s : string) : bool := String.prefix pre s.

(** The [code] property of an error object. Firebase Auth, gRPC-style
    and Multer codes are strings; MongoDB codes (the [11000] of
    [formatMongoError]) are numbers; [APIError] defaults it to [null].
    These four kinds are the codes followed here; a code of another
    kind (a boolean, an object) is not represented. *)
Inductive Code : Type :=
| CUndefined
| CNull
| CStr (s : string)
| CNum (n : Z).

Definition codeVal (c : Code) : JsVal :=
  match c with
  | CUndefined => JUndefined
  | CNull => JNull
  | CStr s => JStr s
  | CNum n => JNum n
  end.

Definition truthyCode (c : Code) : bool := truthy (codeVal c).

Definition optStr (o : option string) : JsVal :=
  match o with
  | Some s => JStr s
  | None => JUndefined
  end.

(** What a JavaScript expression evaluates to: a value, or a thrown
    exception. The modelled code raises a [TypeError] when it calls a
    method a value does not have or reads a property of [null], and a
    [RangeError] when it ends a response under a status Node refuses. *)
Inductive Thrown : Type :=
| TypeError (what : string)
| RangeError (what : string).

Inductive Result (A : Type) : Type :=
| Ok (a : A)
| Throw (e : Thrown).
Arguments Ok {A} a.
Arguments Throw {A} e.

Definition bind {A B : Type} (r : Result A) (k : A -> Result B) : Result B :=
  match r with
  | Ok a => k a
  | Throw e => Throw e
  end.

(** Lookup [table[key]] in an object literal. A literal inherits from
    [Object.prototype], so a key that is not an own key can still hit
    an inherited member (a function, or the prototype itself for
    [__proto__]): such a hit is truthy but has none of the entry's
    fields. *)
Definition objectPrototypeKeys : list string :=
  [ "constructor"; "__defineGetter__"; "__defineSetter__";
    "hasOwnProperty"; "__lookupGetter__"; "__lookupSetter__";
    "isPrototypeOf"; "propertyIsEnumerable"; "toString"; "valueOf";
    "__proto__"; "toLocaleString" ].

Inductive Lookup (E : Type) : Type :=
| Own (e : E)
| Inherited
| Missing.
Arguments Own {E} e.
Arguments Inherited {E}.
Arguments Missing {E}.

Fixpoint ownEntry {E : Type} (k : string) (table : list (string * E)) : option E :=
  match table with
  | [] => None
  | (k', e) :: rest => if String.eqb k k' then Some e else ownEntry k rest
  end.

Definition literalLookup {E : Type} (table : list (string * E)) (k : string) : Lookup E :=
  match ownEntry k table with
  | Some e => Own e
  | None => if existsb (String.eqb k) objectPrototypeKeys then Inherited else Missing
  end.

(** [table[c]] for a [code]: only a string can name an own or an
    inherited key of the tables below ([undefined], [null] and numbers
    convert to keys that none of them has). *)
Definition codeLookup {E : Type} (table : list (string * E)) (c : Code) : Lookup E :=
  match c with
  | CStr s => literalLookup table s
  | _ => Missing
  end.

End Js.
Export Js.

Notation "'let*' x ':=' r 'in' k" := (bind r (fun x => k))
  (at level 10, x name, r at level 100, k at level 200).

(* ===================================================================== *)
(** ** src/middleware/errorHandler.js                                      *)
(* ===================================================================== *)

Module ErrorHandler.

(** An error object as the middleware reads it. Faults are [Error]
    instances, so [name] and [message] are strings ([Error.prototype]
    supplies both); the other properties may be missing. [array] is the
    [array()] method of an express-validator result, with the issues it
    returns; [errorInfo_code] is [error.errorInfo?.code]. *)
Record JsError : Type := mkJsError {
  name : string;
  message : string;
  stack : option string;
  code : Code;
  errorInfo_code : Code;
  array : option (list JsVal);
  isOperational : bool;
  statusCode : option Z;
  details : JsVal
}.

Section Runtime.

(** [process.env.NODE_ENV], and the stack an [Error] constructor
    captures where [new APIError] is evaluated. *)
Variable NODE_ENV : option string.
Variable capturedStack : string.

Definition production : bool :=
  match NODE_ENV with
  | Some v => String.eqb v "production"
  | None => false
  end.

(** [new APIError(message, statusCode = 500, code = null, details = null)].
    An argument that is [undefined] takes its default; [super(undefined)]
    leaves the message at the prototype's empty string. *)
Definition APIError (msg : option string) (status : option Z)
    (c : Code) (d : JsVal) : JsError :=
  {| name := "APIError";
     message := match msg with Some m => m | None => "" end;
     stack := Some capturedStack;
     code := match c with CUndefined => CNull | _ => c end;
     errorInfo_code := CUndefined;
     array := None;
     isOperational := true;
     statusCode := Some (match status with Some n => n | None => 500 end);
     details := match d with JUndefined => JNull | _ => d end |}.

(** [createError] *)
Definition createError (msg : option string) (status : option Z)
    (c : Code) (d : JsVal) : JsError :=
  APIError msg status c d.

(** An entry [{ status, message }] of a mapping table. *)
Record Mapping : Type := mkMapping { m_status : Z; m_message : string }.

Definition FIREBASE_ERROR_CODES : list (string * Mapping) :=
  [ ("auth/user-not-found", mkMapping 404 "User not found");
    ("auth/email-already-exists", mkMapping 409 "Email already exists");
    ("auth/invalid-email", mkMapping 400 "Invalid email format");
    ("auth/weak-password", mkMapping 400 "Password is too weak");
    ("auth/user-disabled", mkMapping 403 "User account is disabled");
    ("auth/too-many-requests", mkMapping 429 "Too many requests");
    ("auth/operation-not-allowed", mkMapping 403 "Operation not allowed");
    ("permission-denied", mkMapping 403 "Permission denied");
    ("not-found", mkMapping 404 "Document not found");
    ("already-exists", mkMapping 409 "Document already exists");
    ("failed-precondition", mkMapping 412 "Failed precondition");
    ("out-of-range", mkMapping 400 "Value out of range");
    ("unimplemented", mkMapping 501 "Operation not implemented");
    ("internal", mkMapping 500 "Internal server error");
    ("unavailable", mkMapping 503 "Service temporarily unavailable");
    ("deadline-exceeded", mkMapping 504 "Request timeout");
    ("unauthenticated", mkMapping 401 "Authentication required") ].

(** [s || fallback] on a message string. *)
Definition messageOr (s fallback : string) : string :=
  if String.eqb s "" then fallback else s.

(** [formatFirebaseError] *)
Definition formatFirebaseError (error : JsError) : JsError :=
  let errorCode :=
    if truthyCode (code error) then code error else errorInfo_code error in
  match codeLookup FIREBASE_ERROR_CODES errorCode with
  | Own errorMapping =>
      APIError (Some (m_message errorMapping)) (Some (m_status errorMapping))
               errorCode (JStr (message error))
  | Inherited =>
      (* a truthy inherited member: its .message and .status are undefined *)
      APIError None None errorCode (JStr (message error))
  | Missing =>
      APIError (Some (messageOr (message error) "Firebase operation failed"))
               (Some 500)
               (if truthyCode errorCode then errorCode else CStr "firebase-error")
               (optStr (stack error))
  end.

(** The callback of [errors.map] in [formatValidationError]: reading
    [err.param] of an issue that is [null] or [undefined] raises. *)
Definition issueEntry (err : JsVal) : Result JsVal :=
  match err with
  | JNull => Throw (TypeError "Cannot read properties of null (reading 'param')")
  | JUndefined => Throw (TypeError "Cannot read properties of undefined (reading 'param')")
  | _ =>
      Ok (JObj [ ("field", or_else (getProp "param" err) (getProp "path" err));
                 ("message", getProp "msg" err);
                 ("value", getProp "value" err) ])
  end.

(** [errors.map(callback)], stopping at the first issue that raises. *)
Fixpoint mapIssues (errors : list JsVal) : Result (list JsVal) :=
  match errors with
  | [] => Ok []
  | err :: rest =>
      let* entry := issueEntry err in
      let* entries := mapIssues rest in
      Ok (entry :: entries)
  end.

(** [formatValidationError] *)
Definition formatValidationError (error : JsError) : Result JsError :=
  match array error with
  | Some errors =>
      let* entries := mapIssues errors in
      Ok (APIError (Some "Validation failed") (Some 400) (CStr "validation-error")
            (JObj [ ("errors", JArr entries) ]))
  | None =>
      Ok (APIError (Some (messageOr (message error) "Validation failed")) (Some 400)
            (CStr "validation-error") JUndefined)
  end.

(** [formatMongoError] *)
Definition formatMongoError (error : JsError) : JsError :=
  match code error with
  | CNum 11000 => APIError (Some "Duplicate field value") (Some 409) (CStr "duplicate-key") JUndefined
  | CNum 11001 => APIError (Some "Duplicate key error") (Some 409) (CStr "duplicate-key") JUndefined
  | _ =>
      APIError (Some (messageOr (message error) "Database operation failed")) (Some 500)
               (CStr "database-error") JUndefined
  end.

Definition jwtErrors : list (string * Mapping) :=
  [ ("JsonWebTokenError", mkMapping 401 "Invalid token");
    ("TokenExpiredError", mkMapping 401 "Token expired");
    ("NotBeforeError", mkMapping 401 "Token not active yet") ].

(** [formatJWTError] *)
Definition formatJWTError (error : JsError) : JsError :=
  match literalLookup jwtErrors (name error) with
  | Own errorMapping =>
      APIError (Some (m_message errorMapping)) (Some (m_status errorMapping))
               (CStr "jwt-error") JUndefined
  | Inherited => APIError None None (CStr "jwt-error") JUndefined
  | Missing => APIError (Some "Authentication failed") (Some 401) (CStr "auth-error") JUndefined
  end.

Definition multerErrors : list (string * Mapping) :=
  [ ("LIMIT_FILE_SIZE", mkMapping 413 "File too large");
    ("LIMIT_FILE_COUNT", mkMapping 413 "Too many files");
    ("LIMIT_FIELD_KEY", mkMapping 400 "Field name too long");
    ("LIMIT_FIELD_VALUE", mkMapping 400 "Field value too long");
    ("LIMIT_FIELD_COUNT", mkMapping 400 "Too many fields");
    ("LIMIT_UNEXPECTED_FILE", mkMapping 400 "Unexpected file field") ].

(** [formatMulterError] *)
Definition formatMulterError (error : JsError) : JsError :=
  match codeLookup multerErrors (code error) with
  | Own errorMapping =>
      APIError (Some (m_message errorMapping)) (Some (m_status errorMapping))
               (CStr "file-upload-error") JUndefined
  | Inherited => APIError None None (CStr "file-upload-error") JUndefined
  | Missing => APIError (Some "File upload failed") (Some 400) (CStr "file-upload-error") JUndefined
  end.

(** [error.code && error.code.startsWith(pre)], as a condition. A falsy
    code short-circuits; a truthy code that is not a string has no
    [startsWith] method and the call raises. *)
Definition codeStartsWith (c : Code) (pre : string) : Result bool :=
  match c with
  | CStr s => Ok (negb (String.eqb s "") && startsWith pre s)
  | CNum n =>
      if n =? 0 then Ok false
      else Throw (TypeError "error.code.startsWith is not a function")
  | CUndefined | CNull => Ok false
  end.

(** The block "Format different types of errors" of [errorHandler]: the
    value of [formattedError] when the logging starts. *)
Definition formatError (error : JsError) : Result JsError :=
  if isOperational error then Ok error else
  let* isAuth := codeStartsWith (code error) "auth/" in
  if isAuth then Ok (formatFirebaseError error)
  else if String.eqb (name error) "FirebaseError" || truthyCode (code error)
  then Ok (formatFirebaseError error)
  else if String.eqb (name error) "ValidationError" || bool_decide (is_Some (array error))
  then formatValidationError error
  else if String.eqb (name error) "MongoError" || String.eqb (name error) "MongoServerError"
  then Ok (formatMongoError error)
  else if negb (String.eqb (name error) "") && includes "JsonWebToken" (name error)
  then Ok (formatJWTError error)
  else
  let* isLimit := codeStartsWith (code error) "LIMIT_" in
  if isLimit then Ok (formatMulterError error)
  else if String.eqb (name error) "CastError"
  then Ok (APIError (Some "Invalid ID format") (Some 400) (CStr "invalid-id") JUndefined)
  else if String.eqb (name error) "SyntaxError" && includes "JSON" (message error)
  then Ok (APIError (Some "Invalid JSON format") (Some 400) (CStr "invalid-json") JUndefined)
  else
    Ok (APIError
          (Some (if production then "Internal server error" else message error))
          (Some 500)
          (CStr "internal-server-error")
          (if negb production then optStr (stack error) else JUndefined)).

(** The request properties the handler reads for the response. *)
Record Request : Type := mkRequest { method : string; originalUrl : string }.

Inductive Severity : Type := LogError | LogWarn.

(** What a middleware call does to the response: it hands over to
    [next], or it ends the response with [res.status(status).json(body)]
    and that call returns. [body] is the value given to [res.json];
    Express serialises it and sends it, the head alone for a [HEAD]
    request or a status that has no content. *)
Inductive Outcome : Type :=
| Next (passed : option JsError)
| Responded (status : Z) (body : JsVal).

(** [formattedError.statusCode || 500] *)
Definition statusOr500 (fe : JsError) : Z :=
  match statusCode fe with
  | Some n => if n =? 0 then 500 else n
  | None => 500
  end.

(** [formattedError.statusCode >= 500] selects [logger.error]. *)
Definition logSeverity (fe : JsError) : Severity :=
  match statusCode fe with
  | Some n => if 500 <=? n then LogError else LogWarn
  | None => LogWarn
  end.

(** The [response] object built under "Prepare response", with the two
    development-mode additions. *)
Definition responseBody (now : string) (error formattedError : JsError)
    (req : Request) : JsVal :=
  JObj [ ("error",
    JObj ([ ("message", JStr (message formattedError));
            ("code", codeVal (code formattedError));
            ("statusCode", JNum (statusOr500 formattedError));
            ("timestamp", JStr now);
            ("path", JStr (originalUrl req));
            ("method", JStr (method req)) ]
          ++ (if negb production && truthy (details formattedError)
              then [ ("details", details formattedError) ] else [])
          ++ (if negb production && truthy (optStr (stack error))
              then [ ("stack", optStr (stack error)) ] else [])) ) ].

(** The statuses under which Node ends a response; for any other
    number [res.status(n).json(body)] raises
    [ERR_HTTP_INVALID_STATUS_CODE] when it writes the head. *)
Definition validStatus (n : Z) : bool := (100 <=? n) && (n <=? 999).

(** [errorHandler(error, req, res, next)]: [headersSent] is
    [res.headersSent], [now] is [new Date().toISOString()]. The result
    pairs the severity logged with what happens to the response; the
    handler itself raises when the normaliser does, or when the status
    it is about to write is not one Node accepts. *)
Definition errorHandler (now : string) (error : JsError) (req : Request)
    (headersSent : bool) : Result (option Severity * Outcome) :=
  if headersSent then Ok (None, Next (Some error)) else
  let* formattedError := formatError error in
  if validStatus (statusOr500 formattedError)
  then Ok (Some (logSeverity formattedError),
           Responded (statusOr500 formattedError)
                     (responseBody now error formattedError req))
  else Throw (RangeError "ERR_HTTP_INVALID_STATUS_CODE").


End Runtime.

End ErrorHandler.
Export ErrorHandler.

(* ===================================================================== *)
(** ** Socket.IO rooms and the handlers of [setupSocketIO] (server.js)     *)
(* ===================================================================== *)

Module SocketIO.

(** The room registry of the Socket.IO server: room name to the ids of
    the sockets in it. The three operations are those of the library's
    in-memory adapter, which [socket.join], [socket.leave] and the
    clean-up of a closing socket call; a room that loses its last
    member is dropped. The registry followed here is the part the
    handlers of [setupSocketIO] write, the rooms [collection:<name>];
    the room the library keeps for every socket under the socket's own
    id is left out (ids are generated by the server and never have that
    form). *)
Abbreviation Rooms := (gmap string (gset string)).

Definition members (rooms : Rooms) (room : string) : gset string :=
  default ∅ (rooms !! room).

Definition without (sid : string) (sockets : gset string) : option (gset string) :=
  let rest := sockets ∖ {[sid]} in
  if decide (rest = ∅) then None else Some rest.

(** [socket.join(room)] *)
Definition join (sid room : string) (rooms : Rooms) : Rooms :=
  <[room := {[sid]} ∪ members rooms room]> rooms.

(** [socket.leave(room)] *)
Definition leave (sid room : string) (rooms : Rooms) : Rooms :=
  match rooms !! room with
  | None => rooms
  | Some sockets =>
      match without sid sockets with
      | Some rest => <[room := rest]> rooms
      | None => delete room rooms
      end
  end.

(** What the library does to a socket that closes, before it fires the
    socket's [disconnect] event: the socket leaves every room. *)
Definition leaveAll (sid : string) (rooms : Rooms) : Rooms :=
  omap (without sid) rooms.

(** The [disconnect] listener of [setupSocketIO]: it logs the socket id
    and touches no room. *)
Definition onDisconnect (sid : string) (rooms : Rooms) : Rooms := rooms.

(** One named event arriving at one socket. *)
Record Delivery : Type := mkDelivery {
  recipient : string;
  eventName : string;
  payload : JsVal
}.

(** [io.to(room).emit(eventName, payload)] *)
Definition emitTo (rooms : Rooms) (room eventName : string) (payload : JsVal)
    : list Delivery :=
  map (fun sid => mkDelivery sid eventName payload) (elements (members rooms room)).

(** The template literal [`collection:${collectionName}`]. *)
Definition collectionRoom (collectionName : string) : string :=
  "collection:" +:+ collectionName.

(** The listeners registered on a connected socket. *)
Inductive ClientEvent : Type :=
| subscribe_to_collection (collectionName : string)
| unsubscribe_from_collection (collectionName : string)
| disconnect.

(** The effect of one client event on the registry. A closing socket
    has left its rooms by the time its [disconnect] listener runs. *)
Definition onClientEvent (sid : string) (ev : ClientEvent) (rooms : Rooms) : Rooms :=
  match ev with
  | subscribe_to_collection collectionName => join sid (collectionRoom collectionName) rooms
  | unsubscribe_from_collection collectionName => leave sid (collectionRoom collectionName) rooms
  | disconnect => onDisconnect sid (leaveAll sid rooms)
  end.

(** The registry after a sequence of client events, oldest first. *)
Definition run (trace : list (string * ClientEvent)) (rooms : Rooms) : Rooms :=
  fold_left (fun acc e => onClientEvent (fst e) (snd e) acc) trace rooms.

(** The subscription state machine of the specification, read off the
    trace alone: a connection is subscribed to a topic when its last
    event about that topic is a subscribe, with no unsubscribe from the
    topic and no close of the connection after it. [was] is the state
    before the trace. *)
Fixpoint subscribedAfter (trace : list (string * ClientEvent))
    (c topic : string) (was : bool) : bool :=
  match trace with
  | [] => was
  | (sid, ev) :: rest =>
      subscribedAfter rest c topic
        (match ev with
         | subscribe_to_collection t =>
             if String.eqb sid c && String.eqb t topic then true else was
         | unsubscribe_from_collection t =>
             if String.eqb sid c && String.eqb t topic then false else was
         | disconnect => if String.eqb sid c then false else was
         end)
  end.

End SocketIO.
Export SocketIO.

(* ===================================================================== *)
(** ** routes/firestore.js                                                 *)
(* ===================================================================== *)

Module Routes.

(** [validateRequest]: [issues] is [validationResult(req).array()]. *)
Definition validateRequest (issues : list JsVal) : Outcome :=
  match issues with
  | [] => Next None
  | _ => Responded 400 (JObj [ ("error", JStr "Validation failed");
                               ("details", JArr issues) ])
  end.

(** How an async route handler ends: it wrote a response, or its
    promise was rejected with the value thrown. *)
Inductive Handled : Type :=
| Wrote (status : Z) (body : JsVal)
| Rejected (e : JsError).

(** [asyncHandler(fn)]: a rejection goes to [next]. *)
Definition asyncHandler (h : Handled) : Outcome :=
  match h with
  | Wrote status body => Responded status body
  | Rejected e => Next (Some e)
  end.

(** [getDb()] of config/firebase.js throws a plain [Error] until
    [initializeFirebase] has run. *)
Definition notInitialized (thrownStack : string) : JsError :=
  {| name := "Error";
     message := "Firestore not initialized. Call initializeFirebase() first.";
     stack := Some thrownStack;
     code := CUndefined;
     errorInfo_code := CUndefined;
     array := None;
     isOperational := false;
     statusCode := None;
     details := JUndefined |}.

(** A document snapshot. *)
Record Snapshot : Type := mkSnapshot {
  doc_exists : bool;
  doc_id : string;
  doc_data : JsVal;
  createTime : JsVal;
  updateTime : JsVal;
  readTime : JsVal
}.

(** What the backend calls inside a handler's [try] block come to. *)
Inductive Backend (A : Type) : Type :=
| Uninitialized
| Fails (fault : JsError)
| Gives (a : A).
Arguments Uninitialized {A}.
Arguments Fails {A} fault.
Arguments Gives {A} a.

Definition documentNotFound (collectionId documentId : string) : JsVal :=
  JObj [ ("success", JBool false);
         ("error", JObj [ ("message", JStr "Document not found");
                          ("code", JStr "document-not-found");
                          ("collection", JStr collectionId);
                          ("documentId", JStr documentId) ]) ].

Section Server.

Variable NODE_ENV : option string.
Variable capturedStack : string.

(** Handler of [GET /collections/:collectionId/documents/:documentId]. *)
Definition getDocument (backend : Backend Snapshot)
    (collectionId documentId : string) (includeMetadata : JsVal) : Handled :=
  match backend with
  | Uninitialized => Rejected (notInitialized capturedStack)
  | Fails error =>
      Rejected (createError capturedStack
        (Some ("Failed to get document " +:+ documentId +:+ " from collection " +:+ collectionId))
        (Some 500) (CStr "firestore-get-error") (JStr (message error)))
  | Gives doc =>
      if negb (doc_exists doc)
      then Wrote 404 (documentNotFound collectionId documentId)
      else Wrote 200
        (JObj [ ("success", JBool true);
                ("data", JObj ([ ("id", JStr (doc_id doc)); ("data", doc_data doc) ]
                   ++ match includeMetadata with
                      | JStr "true" =>
                          [ ("metadata", JObj [ ("createTime", createTime doc);
                                                ("updateTime", updateTime doc);
                                                ("readTime", readTime doc) ]) ]
                      | _ => []
                      end)) ])
  end.

(** The outcome of the write in [POST /collections/:collectionId/documents]:
    a document already stored under the requested id, or the id of the
    new document and the data read back from it. *)
Inductive CreateResult : Type :=
| AlreadyExists (id : string)
| Created (id : string) (data : JsVal).

(** Handler of [POST /collections/:collectionId/documents]: the
    response together with the events emitted. [io] is
    [req.app.get('io')]. *)
Definition createDocument (backend : Backend CreateResult) (io : option Rooms)
    (collectionId : string) : Handled * list Delivery :=
  match backend with
  | Uninitialized => (Rejected (notInitialized capturedStack), [])
  | Fails error =>
      (Rejected (createError capturedStack
         (Some ("Failed to create document in collection " +:+ collectionId))
         (Some 500) (CStr "firestore-create-error") (JStr (message error))), [])
  | Gives (AlreadyExists id) =>
      (Wrote 409
         (JObj [ ("success", JBool false);
                 ("error", JObj [ ("message", JStr "Document already exists");
                                  ("code", JStr "document-exists");
                                  ("collection", JStr collectionId);
                                  ("documentId", JStr id) ]) ]), [])
  | Gives (Created id data) =>
      (Wrote 201
         (JObj [ ("success", JBool true);
                 ("data", JObj [ ("id", JStr id); ("data", data);
                                 ("collection", JStr collectionId) ]) ]),
       match io with
       | Some rooms =>
           emitTo rooms (collectionRoom collectionId) "document-created"
             (JObj [ ("collection", JStr collectionId);
                     ("documentId", JStr id);
                     ("data", data) ])
       | None => []
       end)
  end.

(** A route [[..., validateRequest], asyncHandler(handler)] mounted
    under the application's global [errorHandler]: what reaches the
    client. *)
Definition dispatch (now : string) (req : Request) (issues : list JsVal)
    (h : Handled) : Result Outcome :=
  match validateRequest issues with
  | Responded status body => Ok (Responded status body)
  | Next _ =>
      match asyncHandler h with
      | Next (Some error) =>
          let* logged := errorHandler NODE_ENV capturedStack now error req false in
          Ok (snd logged)
      | answered => Ok answered
      end
  end.

End Server.

End Routes.
Export Routes.

(* ===================================================================== *)
(** ** routes/firestore.js: update, delete, batch and statistics           *)
(* ===================================================================== *)

Module FirestoreRoutes.

(** How one awaited backend call ends. *)
Inductive Call (A : Type) : Type :=
| Throws (fault : JsError)
| Returns (a : A).
Arguments Throws {A} fault.
Arguments Returns {A} a.

(** The calls a handler makes on one document reference, each with how
    it ends: obtaining the reference and reading it at the start, the
    write ([set] or [delete]) and the read after it. *)
Record DocRef : Type := mkDocRef {
  ref_get : Call Snapshot;
  ref_write : Call unit;
  ref_reread : Call Snapshot
}.

(** Decimal text of a number, as in a template literal or an index
    key. *)
Definition decimal (n : Z) : string := NilZero.string_of_int (Z.to_int n).

(** A field of a document handed to the store: a value taken from the
    request, or the [Date] that [new Date()] gives when the write is
    built. *)
Inductive Field : Type :=
| Plain (v : JsVal)
| CurrentDate.

(** The own enumerable properties [{ ...data }] copies: the fields of
    an object, the elements of an array and the characters of a string
    under their indices, nothing for any other value. *)
Definition spread (data : JsVal) : list (string * JsVal) :=
  match data with
  | JObj fields => fields
  | JArr items => imap (fun i v => (decimal (Z.of_nat i), v)) items
  | JStr s =>
      imap (fun i c => (decimal (Z.of_nat i), JStr (String c EmptyString)))
        (list_ascii_of_string s)
  | _ => []
  end.

(** Writing one property of an object under construction: the value of
    an existing key is replaced in place, a new key goes last. *)
Fixpoint assign {V : Type} (k : string) (v : V) (fields : list (string * V))
    : list (string * V) :=
  match fields with
  | [] => [ (k, v) ]
  | (k', v') :: rest =>
      if String.eqb k k' then (k, v) :: rest else (k', v') :: assign k v rest
  end.

(** [{ ...data, updatedAt: new Date() }] *)
Definition stamped (data : JsVal) : list (string * Field) :=
  assign "updatedAt" CurrentDate (map (fun kv => (fst kv, Plain (snd kv))) (spread data)).

(** A call made on the document store. *)
Inductive DbCall : Type :=
| CallGet (collectionId documentId : string)
| CallSet (collectionId documentId : string) (document : list (string * Field))
| CallDelete (collectionId documentId : string).

(** What running a handler comes to: the response, the events emitted
    and the store calls made, oldest first. *)
Record Ran : Type := mkRan {
  response : Handled;
  emitted : list Delivery;
  calls : list DbCall
}.

(** [io.to(`collection:${collectionId}`).emit(eventName, { collection,
    documentId, data })] under [if (io)]. *)
Definition emitChange (io : option Rooms) (eventName collectionId documentId : string)
    (data : JsVal) : list Delivery :=
  match io with
  | Some rooms =>
      emitTo rooms (collectionRoom collectionId) eventName
        (JObj [ ("collection", JStr collectionId);
                ("documentId", JStr documentId);
                ("data", data) ])
  | None => []
  end.

(** [Object.assign]-style write of one property: the value of an
    existing key is replaced in place, a new key goes last. *)
Fixpoint setField (k : string) (v : JsVal) (fields : list (string * JsVal))
    : list (string * JsVal) :=
  match fields with
  | [] => [ (k, v) ]
  | (k', v') :: rest =>
      if String.eqb k k' then (k, v) :: rest else (k', v') :: setField k v rest
  end.

Definition setProp (k : string) (v : JsVal) (o : JsVal) : JsVal :=
  match o with
  | JObj fields => JObj (setField k v fields)
  | _ => o
  end.

(** A write queued on a Firestore batch: [batch.set] or [batch.update]
    with [{ ...data, updatedAt: new Date() }], or [batch.delete], on
    [db.collection(collection).doc(documentId)]. *)
Inductive BatchKind : Type := BatchSet | BatchUpdate | BatchDelete.

Record Queued : Type := mkQueued {
  q_kind : BatchKind;
  q_collection : JsVal;
  q_documentId : JsVal;
  q_document : option (list (string * Field))
}.

(** What the batch route did: its response and the batches it
    committed. *)
Record BatchRan : Type := mkBatchRan {
  b_response : Handled;
  b_commits : list (list Queued)
}.

(** A root collection as [GET /stats] sees it: [col_size] is how
    [collection.limit(1000).get()] ends, with the snapshot's size. *)
Record Collection : Type := mkCollection {
  col_id : string;
  col_path : string;
  col_size : Call Z
}.

Section Handlers.

Variable capturedStack : string.

(** Handler of [PUT /collections/:collectionId/documents/:documentId].
    [db] is [None] when [getDb()] throws. *)
Definition updateDocument (db : option DocRef) (io : option Rooms)
    (collectionId documentId : string) (data : JsVal) : Ran :=
  match db with
  | None => mkRan (Rejected (notInitialized capturedStack)) [] []
  | Some docRef =>
      let failed error :=
        Rejected (createError capturedStack
          (Some ("Failed to update document " +:+ documentId +:+ " in collection " +:+ collectionId))
          (Some 500) (CStr "firestore-update-error") (JStr (message error))) in
      let get := CallGet collectionId documentId in
      let set := CallSet collectionId documentId (stamped data) in
      match ref_get docRef with
      | Throws error => mkRan (failed error) [] [ get ]
      | Returns existingDoc =>
          if negb (doc_exists existingDoc)
          then mkRan (Wrote 404 (documentNotFound collectionId documentId)) [] [ get ]
          else
            match ref_write docRef with
            | Throws error => mkRan (failed error) [] [ get; set ]
            | Returns _ =>
                match ref_reread docRef with
                | Throws error => mkRan (failed error) [] [ get; set; get ]
                | Returns updatedDoc =>
                    mkRan
                      (Wrote 200
                         (JObj [ ("success", JBool true);
                                 ("data", JObj [ ("id", JStr documentId);
                                                 ("data", doc_data updatedDoc);
                                                 ("collection", JStr collectionId) ]) ]))
                      (emitChange io "document-updated" collectionId documentId
                         (doc_data updatedDoc))
                      [ get; set; get ]
                end
            end
      end
  end.

(** Handler of [DELETE /collections/:collectionId/documents/:documentId]. *)
Definition deleteDocument (db : option DocRef) (io : option Rooms)
    (collectionId documentId : string) : Ran :=
  match db with
  | None => mkRan (Rejected (notInitialized capturedStack)) [] []
  | Some docRef =>
      let failed error :=
        Rejected (createError capturedStack
          (Some ("Failed to delete document " +:+ documentId +:+ " from collection " +:+ collectionId))
          (Some 500) (CStr "firestore-delete-error") (JStr (message error))) in
      let get := CallGet collectionId documentId in
      let del := CallDelete collectionId documentId in
      match ref_get docRef with
      | Throws error => mkRan (failed error) [] [ get ]
      | Returns existingDoc =>
          if negb (doc_exists existingDoc)
          then mkRan (Wrote 404 (documentNotFound collectionId documentId)) [] [ get ]
          else
            let documentData := doc_data existingDoc in
            match ref_write docRef with
            | Throws error => mkRan (failed error) [] [ get; del ]
            | Returns _ =>
                mkRan
                  (Wrote 200
                     (JObj [ ("success", JBool true);
                             ("data", JObj [ ("message", JStr "Document deleted successfully");
                                             ("id", JStr documentId);
                                             ("collection", JStr collectionId);
                                             ("deletedData", documentData) ]) ]))
                  (emitChange io "document-deleted" collectionId documentId documentData)
                  [ get; del ]
            end
      end
  end.

(** [db.collection(collection).doc(documentId)] throws for a path the
    SDK rejects: [invalidPath] gives what it throws, if it does. *)
Variable invalidPath : JsVal -> JsVal -> option JsError.

(** [batch.set], [batch.update] and [batch.delete] validate what they
    are given and throw for a write the SDK rejects: [invalidWrite]
    gives what is thrown, if anything. *)
Variable invalidWrite : Queued -> option JsError.

(** The entry pushed on [results] for an operation. *)
Definition resultEntry (operation : JsVal) : JsVal :=
  JObj [ ("type", getProp "type" operation);
         ("collection", getProp "collection" operation);
         ("documentId", getProp "documentId" operation);
         ("status", JStr "queued") ].

Definition queued (kind : BatchKind) (operation : JsVal) : Queued :=
  {| q_kind := kind;
     q_collection := getProp "collection" operation;
     q_documentId := getProp "documentId" operation;
     q_document := match kind with
                   | BatchDelete => None
                   | _ => Some (stamped (getProp "data" operation))
                   end |}.

(** [const { type, collection, documentId, data } = operation] throws
    a [TypeError] when the operation is [null] or [undefined]. *)
Definition cannotDestructure (operation : JsVal) : option JsError :=
  let thrown what :=
    {| name := "TypeError";
       message := "Cannot destructure property 'type' of 'operation' as it is " +:+ what +:+ ".";
       stack := Some capturedStack;
       code := CUndefined; errorInfo_code := CUndefined; array := None;
       isOperational := false; statusCode := None; details := JUndefined |} in
  match operation with
  | JNull => Some (thrown "null")
  | JUndefined => Some (thrown "undefined")
  | _ => None
  end.

Definition missingData (what : string) : JsError :=
  createError capturedStack (Some ("Data is required for " +:+ what +:+ " operation"))
    (Some 400) (CStr "missing-data") JUndefined.

(** The [for (const operation of operations)] loop of [POST /batch]:
    the writes queued and the result entries, or what the loop threw. *)
Fixpoint queueOperations (operations : list JsVal) (batch : list Queued)
    (results : list JsVal) : Call (list Queued * list JsVal) :=
  match operations with
  | [] => Returns (batch, results)
  | operation :: rest =>
      match cannotDestructure operation,
            invalidPath (getProp "collection" operation) (getProp "documentId" operation) with
      | Some error, _ => Throws error
      | None, Some error => Throws error
      | None, None =>
          let push kind :=
            match invalidWrite (queued kind operation) with
            | Some error => Throws error
            | None =>
                queueOperations rest (batch ++ [ queued kind operation ])
                  (results ++ [ resultEntry operation ])
            end in
          match getProp "type" operation with
          | JStr type =>
              if String.eqb type "set" then
                if negb (truthy (getProp "data" operation))
                then Throws (missingData "set") else push BatchSet
              else if String.eqb type "update" then
                if negb (truthy (getProp "data" operation))
                then Throws (missingData "update") else push BatchUpdate
              else if String.eqb type "delete" then push BatchDelete
              else queueOperations rest batch results
          | _ => queueOperations rest batch results
          end
      end
  end.

(** Handler of [POST /batch]. [db] is [None] when [getDb()] throws;
    otherwise it tells how [batch.commit()] ends for the queued writes. *)
Definition batchOperations (db : option (list Queued -> Call unit))
    (operations : list JsVal) : BatchRan :=
  match db with
  | None => mkBatchRan (Rejected (notInitialized capturedStack)) []
  | Some commit =>
      let failed error :=
        Rejected (createError capturedStack (Some "Failed to execute batch operation")
          (Some 500) (CStr "firestore-batch-error") (JStr (message error))) in
      match queueOperations operations [] [] with
      | Throws error => mkBatchRan (failed error) []
      | Returns (batch, results) =>
          match commit batch with
          | Throws error => mkBatchRan (failed error) [ batch ]
          | Returns _ =>
              let completed := map (setProp "status" (JStr "completed")) results in
              mkBatchRan
                (Wrote 200
                   (JObj [ ("success", JBool true);
                           ("data", JObj [ ("message", JStr "Batch operation completed successfully");
                                           ("operations", JArr completed);
                                           ("count", JNum (Z.of_nat (length completed))) ]) ]))
                [ batch ]
          end
      end
  end.

(** The entry of [stats.collections] for one collection. *)
Definition collectionStats (collection : Collection) : JsVal :=
  match col_size collection with
  | Returns size =>
      JObj [ ("id", JStr (col_id collection));
             ("path", JStr (col_path collection));
             ("documentCount", JNum size);
             ("sampleSize", JNum (Z.min size 1000)) ]
  | Throws collectionError =>
      JObj [ ("id", JStr (col_id collection));
             ("path", JStr (col_path collection));
             ("documentCount", JStr "Unable to count");
             ("error", JStr (message collectionError)) ]
  end.

(** Handler of [GET /stats]. [db] is [None] when [getDb()] throws;
    otherwise it tells how [db.listCollections()] ends. *)
Definition getStats (db : option (Call (list Collection))) : Handled :=
  match db with
  | None => Rejected (notInitialized capturedStack)
  | Some (Throws error) =>
      Rejected (createError capturedStack (Some "Failed to get database statistics")
        (Some 500) (CStr "firestore-stats-error") (JStr (message error)))
  | Some (Returns collections) =>
      let count := Z.of_nat (length collections) in
      Wrote 200
        (JObj [ ("success", JBool true);
                ("data",
                 JObj ([ ("collectionsCount", JNum count);
                         ("collections", JArr (map collectionStats (firstn 10 collections))) ]
                       ++ (if 10 <? count
                           then [ ("note", JStr ("Showing stats for first 10 collections out of "
                                                 +:+ decimal count)) ]
                           else []))) ])
  end.

End Handlers.

End FirestoreRoutes.
Export FirestoreRoutes.

(* ===================================================================== *)
(** ** routes/mcp.js: tools and prompts                                    *)
(* ===================================================================== *)

Module McpRoutes.

(** The names [POST /tools/:toolName] has a case for. *)
Definition toolNames : list string :=
  [ "firestore_list_collections"; "firestore_add_document";
    "firestore_get_document"; "firestore_update_document";
    "firestore_delete_document"; "firestore_query_collection";
    "storage_list_files"; "storage_get_file_info";
    "auth_get_user"; "auth_list_users" ].

Section Handlers.

Variable capturedStack : string.

(** Handler of [POST /tools/:toolName]: the response and the names of
    the tools executed. [execute] tells how the helper behind a tool
    ends for the given arguments; [now] is [new Date().toISOString()]. *)
Definition executeTool (execute : string -> JsVal -> Call JsVal) (now : string)
    (toolName : string) (arguments : JsVal) : Handled * list string :=
  let toolArgs := match arguments with JUndefined => JObj [] | _ => arguments end in
  let failed error :=
    Rejected (createError capturedStack
      (Some ("Tool execution failed: " +:+ message error))
      (Some 500) (CStr "tool-execution-error") (JStr (message error))) in
  if existsb (String.eqb toolName) toolNames then
    match execute toolName toolArgs with
    | Returns result =>
        (Wrote 200
           (JObj [ ("success", JBool true);
                   ("data", JObj [ ("tool", JStr toolName);
                                   ("result", result);
                                   ("timestamp", JStr now) ]) ]),
         [ toolName ])
    | Throws error => (failed error, [ toolName ])
    end
  else
    (failed (createError capturedStack
               (Some ("Tool '" +:+ toolName +:+ "' not found"))
               (Some 404) (CStr "tool-not-found") JUndefined),
     []).

(** The prompt bodies [getFirestoreCrudExamplePrompt()] and
    [getFirebaseBestPracticesPrompt()] return. *)
Variable firestoreCrudExample : JsVal.
Variable firebaseBestPractices : JsVal.

(** Handler of [GET /prompts/:promptName]. *)
Definition getPrompt (now : string) (promptName : string) : Handled :=
  let found prompt :=
    Wrote 200
      (JObj [ ("success", JBool true);
              ("data", JObj [ ("prompt", JStr promptName);
                              ("content", prompt);
                              ("timestamp", JStr now) ]) ]) in
  if String.eqb promptName "firestore_crud_example" then found firestoreCrudExample
  else if String.eqb promptName "firebase_best_practices" then found firebaseBestPractices
  else
    let error :=
      createError capturedStack (Some ("Prompt '" +:+ promptName +:+ "' not found"))
        (Some 404) (CStr "prompt-not-found") JUndefined in
    Rejected (createError capturedStack
      (Some ("Prompt fetch failed: " +:+ message error))
      (Some 500) (CStr "prompt-fetch-error") (JStr (message error))).

End Handlers.

End McpRoutes.
Export McpRoutes.


(* ===================================================================== *)
(** ** Vocabulary of the specification                                     *)
(* ===================================================================== *)

(** The class of faults the specification calls "matching no table",
    as it is worded: the fault is not operational, its code is an entry
    of no table and stands under no recognised prefix, and its name and
    shape are not recognised. *)
Definition inNoTable (error : JsError) : bool :=
  negb (isOperational error)
  && match codeLookup FIREBASE_ERROR_CODES (code error) with Own _ => false | _ => true end
  && match codeLookup multerErrors (code error) with Own _ => false | _ => true end
  && match code error with
     | CStr s => negb (startsWith "auth/" s) && negb (startsWith "LIMIT_" s)
     | CNum n => negb (n =? 11000) && negb (n =? 11001)
     | _ => true
     end
  && match literalLookup jwtErrors (name error) with Own _ => false | _ => true end
  && negb (String.eqb (name error) "FirebaseError")
  && negb (String.eqb (name error) "ValidationError")
  && negb (bool_decide (is_Some (array error)))
  && negb (String.eqb (name error) "MongoError")
  && negb (String.eqb (name error) "MongoServerError")
  && negb (includes "JsonWebToken" (name error))
  && negb (String.eqb (name error) "CastError")
  && negb (String.eqb (name error) "SyntaxError" && includes "JSON" (message error)).

(** The faults of that class that carry no code at all: not operational,
    a falsy code, and neither a name nor a shape the dispatch of
    [formatError] recognises. *)
Definition matchesNoTable (error : JsError) : bool :=
  negb (isOperational error)
  && negb (truthyCode (code error))
  && negb (String.eqb (name error) "FirebaseError")
  && negb (String.eqb (name error) "ValidationError")
  && negb (bool_decide (is_Some (array error)))
  && negb (String.eqb (name error) "MongoError")
  && negb (String.eqb (name error) "MongoServerError")
  && negb (includes "JsonWebToken" (name error))
  && negb (String.eqb (name error) "CastError")
  && negb (String.eqb (name error) "SyntaxError" && includes "JSON" (message error)).

(** The failure envelope of the specification,
    [{ success: false, error: { message, code, statusCode, timestamp,
    path, method, details? } }]. *)
Definition envelopeFields : list string :=
  [ "message"; "code"; "statusCode"; "timestamp"; "path"; "method" ].


(** The keys the handler adds to the envelope outside production. *)
Definition developmentFields (NODE_ENV : option string)
    (error formattedError : JsError) : list string :=
  ((if negb (production NODE_ENV) && truthy (details formattedError)
    then [ "details" ] else [])
   ++ (if negb (production NODE_ENV) && truthy (optStr (stack error))
       then [ "stack" ] else []))%list.

(** The registry keeps no empty room. *)
Definition tidy (rooms : Rooms) : Prop :=
  forall room sockets, rooms !! room = Some sockets -> sockets <> ∅.

(** A plain [Error] carrying the given properties. *)
Definition plainError (n msg : string) (c : Code) : JsError :=
  {| name := n; message := msg; stack := Some "Error: at handler";
     code := c; errorInfo_code := CUndefined; array := None;
     isOperational := false; statusCode := None; details := JUndefined |}.

Definition sampleRequest : Request :=
  {| method := "GET"; originalUrl := "/api/v1/firestore/collections/users/documents/u1" |}.

Definition sampleNow : string := "2024-05-01T10:00:00.000Z".

(** [createError('halted', 0, 'halted')]. *)
Definition haltedError : JsError :=
  createError "" (Some "halted") (Some 0) (CStr "halted") JUndefined.


(** An issue as express-validator reports it. *)
Definition sampleIssue : JsVal :=
  JObj [ ("value", JStr ""); ("msg", JStr "Collection ID is required");
         ("param", JStr "collectionId"); ("location", JStr "params") ].

(** The snapshot of a document that does not exist. *)
Definition missingSnapshot : Snapshot :=
  {| doc_exists := false; doc_id := "u1"; doc_data := JUndefined;
     createTime := JUndefined; updateTime := JUndefined; readTime := JUndefined |}.

(* ===================================================================== *)
(** ** The error normaliser                                                *)
(* ===================================================================== *)

Ltac case_conditions :=
  repeat match goal with
         | |- context [if ?b then _ else _] => destruct b eqn:?
         end.

Lemma codeStartsWith_falsy c pre :
  truthyCode c = false -> codeStartsWith c pre = Ok false.
Proof.
  destruct c as [| |s|n]; cbn; try reflexivity.
  - intros H. apply negb_false_iff in H. rewrite H. reflexivity.
  - intros H. apply negb_false_iff in H. rewrite H. reflexivity.
Qed.

Lemma codeStartsWith_string s pre :
  s <> "" -> codeStartsWith (CStr s) pre = Ok (startsWith pre s).
Proof.
  intros Hs. cbn. apply String.eqb_neq in Hs. rewrite Hs. reflexivity.
Qed.

(** Every truthy string code is sent to [formatFirebaseError], whatever
    its prefix. *)
Lemma formatError_string_code env stk error s :
  isOperational error = false -> code error = CStr s -> s <> "" ->
  formatError env stk error = Ok (formatFirebaseError stk error).
Proof.
  intros Hop Hc Hs. unfold formatError.
  rewrite Hop, Hc, (codeStartsWith_string _ _ Hs). cbn [bind].
  destruct (startsWith "auth/" s); [reflexivity|].
  assert (truthyCode (CStr s) = true) as ->.
  { cbn. apply String.eqb_neq in Hs. now rewrite Hs. }
  rewrite orb_true_r. reflexivity.
Qed.

(** An operational error is returned as it is. *)
Lemma formatError_operational env stk error :
  isOperational error = true -> formatError env stk error = Ok error.
Proof. intros H. unfold formatError. now rewrite H. Qed.


(** A numeric code makes the first test of the dispatch raise: the
    duplicate-key cases of [formatMongoError] are never reached. *)
Example formatError_numeric_code :
  formatError None "" (plainError "MongoServerError" "E11000 duplicate key" (CNum 11000))
  = Throw (TypeError "error.code.startsWith is not a function").
Proof. reflexivity. Qed.

(** The second test sends every coded fault to [formatFirebaseError]:
    a Multer limit keeps its own code and becomes a 500. *)
Example formatError_multer_limit :
  exists fe,
    formatError None "" (plainError "MulterError" "File too large" (CStr "LIMIT_FILE_SIZE")) = Ok fe
    /\ statusCode fe = Some 500 /\ code fe = CStr "LIMIT_FILE_SIZE".
Proof. eexists. split; [reflexivity|]. split; reflexivity. Qed.

(** C1, as stated, fails. A fault can match no table and still carry a
    code: the dispatch then takes it for a Firebase fault. Under a
    string code that no table knows it is answered 500 with that code,
    not "internal-server-error", and with its own message also in
    production; under a non-zero number the normaliser raises. *)
Lemma unrecognised_code_counterexample :
  inNoTable (plainError "Error" "connect ECONNREFUSED 10.0.0.5:5432" (CStr "ECONNREFUSED")) = true
  /\ (exists fe,
        formatError (Some "production") ""
          (plainError "Error" "connect ECONNREFUSED 10.0.0.5:5432" (CStr "ECONNREFUSED")) = Ok fe
        /\ statusCode fe = Some 500
        /\ code fe = CStr "ECONNREFUSED"
        /\ code fe <> CStr "internal-server-error"
        /\ message fe = "connect ECONNREFUSED 10.0.0.5:5432"
        /\ message fe <> "Internal server error")
  /\ inNoTable (plainError "Error" "5 NOT_FOUND" (CNum 5)) = true
  /\ formatError (Some "production") "" (plainError "Error" "5 NOT_FOUND" (CNum 5))
     = Throw (TypeError "error.code.startsWith is not a function").
Proof.
  split; [reflexivity|]. split.
  - eexists. split; [reflexivity|]. cbn. repeat split; discriminate.
  - split; reflexivity.
Qed.

(** C1, amended. A fault that matches none of the mapping tables and
    carries no code (not operational; code undefined, null, empty or
    zero; no recognised name or shape) never makes the normaliser
    raise: it is turned into an error with status 500 and code
    "internal-server-error", whose message is the generic phrase in
    production mode and the fault's own message otherwise. *)
Theorem unmatched_fault_falls_back env stk error :
  matchesNoTable error = true ->
  exists fe,
    formatError env stk error = Ok fe
    /\ statusCode fe = Some 500
    /\ code fe = CStr "internal-server-error"
    /\ message fe = (if production env then "Internal server error" else message error).
Proof.
  unfold matchesNoTable. intros H.
  repeat (apply andb_prop in H; destruct H as [H ?]).
  repeat match goal with
         | Hn : negb _ = true |- _ => apply negb_true_iff in Hn
         end.
  unfold formatError.
  match goal with Hop : isOperational error = false |- _ => rewrite Hop end.
  match goal with Hc : truthyCode (code error) = false |- _ =>
    rewrite !(codeStartsWith_falsy _ _ Hc), Hc end.
  cbn [bind].
  repeat match goal with
         | Hn : _ = false |- _ => rewrite Hn; clear Hn
         end.
  rewrite andb_false_r. cbn [orb].
  eexists. split; [reflexivity|]. cbn. repeat split; reflexivity.
Qed.

Lemma unmatched_fault_falls_back_witness :
  matchesNoTable (plainError "RangeError" "index out of bounds" CUndefined) = true
  /\ exists fe,
       formatError (Some "production") "" (plainError "RangeError" "index out of bounds" CUndefined) = Ok fe
       /\ statusCode fe = Some 500
       /\ code fe = CStr "internal-server-error"
       /\ message fe = "Internal server error".
Proof.
  split; [reflexivity|].
  apply (unmatched_fault_falls_back (Some "production") ""
           (plainError "RangeError" "index out of bounds" CUndefined)).
  reflexivity.
Defined.

(** C3, as stated, fails. A fault whose code is "auth/user-not-found"
    does become a 404, but the code of the result is the upstream code
    with its "auth/" prefix; a fault whose code is the bare
    "user-not-found" has no entry in the table and becomes a 500. *)
Lemma user_not_found_code_counterexample :
  (exists fe,
     formatError None "" (plainError "FirebaseAuthError" "no user record" (CStr "auth/user-not-found")) = Ok fe
     /\ statusCode fe = Some 404
     /\ code fe = CStr "auth/user-not-found"
     /\ code fe <> CStr "user-not-found")
  /\ (exists fe,
        formatError None "" (plainError "FirebaseAuthError" "no user record" (CStr "user-not-found")) = Ok fe
        /\ code fe = CStr "user-not-found"
        /\ statusCode fe = Some 500
        /\ statusCode fe <> Some 404).
Proof.
  split; eexists; (split; [reflexivity|]); cbn; repeat split; discriminate.
Qed.

(** C3, amended. Every fault of the identity provider that is not
    operational and carries the code "auth/user-not-found" is
    normalised to status 404 with the message "User not found"; the
    code of the result is the upstream code "auth/user-not-found", and
    the fault's own message is kept as the details. *)
Theorem auth_user_not_found_is_404 env stk error :
  isOperational error = false ->
  code error = CStr "auth/user-not-found" ->
  exists fe,
    formatError env stk error = Ok fe
    /\ statusCode fe = Some 404
    /\ code fe = CStr "auth/user-not-found"
    /\ message fe = "User not found"
    /\ details fe = JStr (message error).
Proof.
  intros Hop Hc.
  rewrite (formatError_string_code env stk error _ Hop Hc) by discriminate.
  eexists. split; [reflexivity|].
  unfold formatFirebaseError. rewrite Hc. cbn. repeat split; reflexivity.
Qed.

Lemma auth_user_not_found_is_404_witness :
  exists fe,
    formatError (Some "production") "at formatFirebaseError"
      (plainError "FirebaseAuthError" "There is no user record" (CStr "auth/user-not-found")) = Ok fe
    /\ statusCode fe = Some 404
    /\ code fe = CStr "auth/user-not-found"
    /\ message fe = "User not found"
    /\ details fe = JStr "There is no user record".
Proof.
  apply (auth_user_not_found_is_404 (Some "production") "at formatFirebaseError"
           (plainError "FirebaseAuthError" "There is no user record" (CStr "auth/user-not-found")));
    reflexivity.
Defined.

(** C4, as stated, fails: a document-store fault whose code has no
    entry in the table keeps its own code; the result is not coded
    "internal". *)
Lemma unmapped_code_counterexample :
  exists fe,
    formatError None "" (plainError "Error" "quota exceeded" (CStr "resource-exhausted")) = Ok fe
    /\ statusCode fe = Some 500
    /\ code fe = CStr "resource-exhausted"
    /\ code fe <> CStr "internal".
Proof.
  eexists. split; [reflexivity|]. cbn. repeat split; discriminate.
Qed.

(** C4, amended. For every fault that is not operational and whose code
    is a non-empty string that the table does not resolve (it has no
    entry for it; the names every object literal inherits are left
    aside), the normaliser does not throw: it returns status 500 and
    keeps the fault's own code, with the fault's message, or "Firebase
    operation failed" when that is empty. *)
Theorem unmapped_code_keeps_code env stk error s :
  isOperational error = false ->
  code error = CStr s ->
  s <> "" ->
  literalLookup FIREBASE_ERROR_CODES s = Missing ->
  exists fe,
    formatError env stk error = Ok fe
    /\ statusCode fe = Some 500
    /\ code fe = CStr s
    /\ message fe = messageOr (message error) "Firebase operation failed".
Proof.
  intros Hop Hc Hs Hmissing.
  rewrite (formatError_string_code env stk error s Hop Hc Hs).
  eexists. split; [reflexivity|].
  assert (truthyCode (CStr s) = true) as Ht.
  { cbn. apply String.eqb_neq in Hs. now rewrite Hs. }
  unfold formatFirebaseError. rewrite Hc, Ht.
  unfold codeLookup. rewrite Hmissing.
  cbn [APIError statusCode code message]. rewrite Ht. repeat split; reflexivity.
Qed.

Lemma unmapped_code_keeps_code_witness :
  exists fe,
    formatError None "" (plainError "Error" "" (CStr "cancelled")) = Ok fe
    /\ statusCode fe = Some 500
    /\ code fe = CStr "cancelled"
    /\ message fe = "Firebase operation failed".
Proof.
  apply (unmapped_code_keeps_code None "" (plainError "Error" "" (CStr "cancelled")) "cancelled");
    [reflexivity | reflexivity | discriminate | reflexivity].
Defined.

(** C5, as stated, fails: the fault coded "not-found" is normalised to
    the code "not-found", not "document-not-found", and the result also
    carries the fault's own message as its details. *)
Lemma not_found_code_counterexample :
  exists fe,
    formatError None "" (plainError "Error" "5 NOT_FOUND: no entity" (CStr "not-found")) = Ok fe
    /\ statusCode fe = Some 404
    /\ message fe = "Document not found"
    /\ code fe = CStr "not-found"
    /\ code fe <> CStr "document-not-found"
    /\ details fe = JStr "5 NOT_FOUND: no entity".
Proof.
  eexists. split; [reflexivity|]. cbn. repeat split; discriminate.
Qed.

(** C5, amended. The document-store fault coded "not-found" (not
    operational) is normalised to exactly the error with code
    "not-found", status 404, message "Document not found" and the
    fault's own message as details. *)
Theorem not_found_is_404 env stk error :
  isOperational error = false ->
  code error = CStr "not-found" ->
  formatError env stk error
  = Ok (APIError stk (Some "Document not found") (Some 404) (CStr "not-found")
          (JStr (message error))).
Proof.
  intros Hop Hc.
  rewrite (formatError_string_code env stk error _ Hop Hc) by discriminate.
  unfold formatFirebaseError. rewrite Hc. reflexivity.
Qed.

Lemma not_found_is_404_witness :
  exists fe,
    formatError None "at formatFirebaseError"
      (plainError "Error" "5 NOT_FOUND: no entity" (CStr "not-found")) = Ok fe
    /\ code fe = CStr "not-found"
    /\ statusCode fe = Some 404
    /\ message fe = "Document not found"
    /\ details fe = JStr "5 NOT_FOUND: no entity".
Proof.
  eexists. split.
  - apply (not_found_is_404 None "at formatFirebaseError"
             (plainError "Error" "5 NOT_FOUND: no entity" (CStr "not-found")));
      reflexivity.
  - cbn. repeat split; reflexivity.
Defined.

(* ===================================================================== *)
(** ** The error boundary                                                  *)
(* ===================================================================== *)

Lemma developmentFields_production env error fe :
  production env = true -> developmentFields env error fe = [].
Proof. intros H. unfold developmentFields. now rewrite H. Qed.









(* ===================================================================== *)
(** ** Upstream of the boundary: [validateRequest] and the routes          *)
(* ===================================================================== *)






(* ===================================================================== *)
(** ** The change fan-out                                                  *)
(* ===================================================================== *)

Lemma elem_of_without sid (sockets : gset string) c :
  c ∈ default ∅ (without sid sockets) <-> c ∈ sockets /\ c <> sid.
Proof.
  unfold without. destruct (decide (sockets ∖ {[sid]} = ∅)) as [He|_]; cbn.
  - split; [set_solver|]. intros [Hc Hne].
    assert (c ∈ sockets ∖ {[sid]}) as Hin by set_solver.
    rewrite He in Hin. set_solver.
  - set_solver.
Qed.

Lemma elem_of_members_join sid room (rooms : Rooms) c room' :
  c ∈ members (join sid room rooms) room'
  <-> (c = sid /\ room = room') \/ c ∈ members rooms room'.
Proof.
  unfold members, join.
  destruct (decide (room = room')) as [<-|Hne].
  - rewrite lookup_insert_eq. cbn. set_solver.
  - rewrite lookup_insert_ne by done. naive_solver.
Qed.

Lemma elem_of_members_leave sid room (rooms : Rooms) c room' :
  c ∈ members (leave sid room rooms) room'
  <-> c ∈ members rooms room' /\ ~ (c = sid /\ room = room').
Proof.
  unfold members, leave.
  destruct (rooms !! room) as [sockets|] eqn:Hroom.
  - pose proof (elem_of_without sid sockets c) as Hw.
    destruct (without sid sockets) as [rest|] eqn:Hrest; cbn in Hw.
    + destruct (decide (room = room')) as [<-|Hne].
      * rewrite lookup_insert_eq, Hroom. cbn. naive_solver.
      * rewrite lookup_insert_ne by done. naive_solver.
    + destruct (decide (room = room')) as [<-|Hne].
      * rewrite lookup_delete_eq, Hroom. cbn.
        split; [set_solver|]. intros [Hc Hn]. apply Hw. split; [done|].
        intros ->. apply Hn. done.
      * rewrite lookup_delete_ne by done. naive_solver.
  - destruct (decide (room = room')) as [<-|Hne].
    + rewrite Hroom. cbn. set_solver.
    + naive_solver.
Qed.

Lemma elem_of_members_leaveAll sid (rooms : Rooms) c room :
  c ∈ members (leaveAll sid rooms) room <-> c ∈ members rooms room /\ c <> sid.
Proof.
  unfold members, leaveAll. rewrite lookup_omap.
  destruct (rooms !! room) as [sockets|]; cbn.
  - apply elem_of_without.
  - set_solver.
Qed.

Lemma collectionRoom_inj t t' : collectionRoom t = collectionRoom t' -> t = t'.
Proof. unfold collectionRoom. cbn. intros [= H]. exact H. Qed.

(** The recipients of a broadcast are the members of the room, each
    once. *)
Lemma recipients_emitTo (rooms : Rooms) room eventName data :
  map recipient (emitTo rooms room eventName data) = elements (members rooms room).
Proof.
  unfold emitTo. rewrite map_map. cbn. apply map_id.
Qed.

(** One client event moves the registry as the state machine of the
    specification says. *)
Lemma subscribed_step sid ev (rooms : Rooms) c topic :
  bool_decide (c ∈ members (onClientEvent sid ev rooms) (collectionRoom topic))
  = match ev with
    | subscribe_to_collection t =>
        if String.eqb sid c && String.eqb t topic then true
        else bool_decide (c ∈ members rooms (collectionRoom topic))
    | unsubscribe_from_collection t =>
        if String.eqb sid c && String.eqb t topic then false
        else bool_decide (c ∈ members rooms (collectionRoom topic))
    | disconnect =>
        if String.eqb sid c then false
        else bool_decide (c ∈ members rooms (collectionRoom topic))
    end.
Proof.
  destruct ev as [t|t|]; cbn [onClientEvent]; unfold onDisconnect.
  - destruct (String.eqb_spec sid c) as [->|Hc];
      [destruct (String.eqb_spec t topic) as [->|Ht]|]; cbn [andb].
    + apply bool_decide_eq_true. apply elem_of_members_join. by left.
    + apply bool_decide_ext. rewrite elem_of_members_join.
      split; [|by right]. intros [[_ Hr]|H]; [|done].
      apply collectionRoom_inj in Hr. done.
    + apply bool_decide_ext. rewrite elem_of_members_join.
      split; [|by right]. intros [[Hr _]|H]; [|done]. by subst.
  - destruct (String.eqb_spec sid c) as [->|Hc];
      [destruct (String.eqb_spec t topic) as [->|Ht]|]; cbn [andb].
    + apply bool_decide_eq_false. rewrite elem_of_members_leave. naive_solver.
    + apply bool_decide_ext. rewrite elem_of_members_leave.
      split; [naive_solver|]. intros H. split; [done|].
      intros [_ Hr]. apply collectionRoom_inj in Hr. done.
    + apply bool_decide_ext. rewrite elem_of_members_leave.
      split; [naive_solver|]. intros H. split; [done|]. intros [Hr _]. by subst.
  - destruct (String.eqb_spec sid c) as [->|Hc].
    + apply bool_decide_eq_false. rewrite elem_of_members_leaveAll. naive_solver.
    + apply bool_decide_ext. rewrite elem_of_members_leaveAll. naive_solver.
Qed.

(** The registry refines the state machine along any trace. *)
Lemma subscribed_run trace : forall (rooms : Rooms) c topic,
  bool_decide (c ∈ members (run trace rooms) (collectionRoom topic))
  = subscribedAfter trace c topic
      (bool_decide (c ∈ members rooms (collectionRoom topic))).
Proof.
  induction trace as [|[sid ev] rest IH]; intros rooms c topic; [reflexivity|].
  cbn [run fold_left fst snd subscribedAfter].
  change (fold_left _ rest ?r) with (run rest r).
  rewrite IH, subscribed_step. destruct ev; reflexivity.
Qed.

Lemma elem_of_recipients (rooms : Rooms) topic eventName data c :
  c ∈ map recipient (emitTo rooms (collectionRoom topic) eventName data)
  <-> bool_decide (c ∈ members rooms (collectionRoom topic)) = true.
Proof.
  rewrite recipients_emitTo, elem_of_elements, bool_decide_eq_true. reflexivity.
Qed.

Lemma members_empty room : members (∅ : Rooms) room = ∅.
Proof. unfold members. rewrite lookup_empty. reflexivity. Qed.

(** C7. Fan-out isolation. Whatever the connections did before, the
    event a route emits for a collection is delivered to exactly the
    connections subscribed to that collection at that moment, each once;
    a connection that is not subscribed to it (for instance one
    subscribed only to another collection) is not among the recipients.
    [createDocument] publishes this way. *)
Theorem fan_out_isolation stk trace topic id data :
  (forall eventName body,
     NoDup (map recipient (emitTo (run trace ∅) (collectionRoom topic) eventName body))
     /\ (forall c,
           c ∈ map recipient (emitTo (run trace ∅) (collectionRoom topic) eventName body)
           <-> subscribedAfter trace c topic false = true)
     /\ (forall c other,
           other <> topic ->
           subscribedAfter trace c other false = true ->
           subscribedAfter trace c topic false = false ->
           c ∉ map recipient (emitTo (run trace ∅) (collectionRoom topic) eventName body)))
  /\ snd (createDocument stk (Gives (Created id data)) (Some (run trace ∅)) topic)
     = emitTo (run trace ∅) (collectionRoom topic) "document-created"
         (JObj [ ("collection", JStr topic); ("documentId", JStr id); ("data", data) ]).
Proof.
  assert (forall eventName body c,
            c ∈ map recipient (emitTo (run trace ∅) (collectionRoom topic) eventName body)
            <-> subscribedAfter trace c topic false = true) as Hiff.
  { intros eventName body c.
    rewrite elem_of_recipients, subscribed_run, members_empty.
    rewrite (bool_decide_eq_false_2 (c ∈ (∅ : gset string))) by set_solver.
    reflexivity. }
  split; [|reflexivity].
  intros eventName body. split; [|split].
  - rewrite recipients_emitTo. apply NoDup_elements.
  - apply Hiff.
  - intros c other _ _ Hnot Hin. apply Hiff in Hin. congruence.
Qed.

Lemma fan_out_isolation_witness :
  map recipient
    (emitTo (run [ ("A", subscribe_to_collection "users");
                   ("B", subscribe_to_collection "posts") ] ∅)
       (collectionRoom "users") "document-created" JNull) = [ "A" ]
  /\ "B" ∉ map recipient
       (emitTo (run [ ("A", subscribe_to_collection "users");
                      ("B", subscribe_to_collection "posts") ] ∅)
          (collectionRoom "users") "document-created" JNull).
Proof.
  split; [vm_compute; reflexivity|].
  destruct (fan_out_isolation ""
              [ ("A", subscribe_to_collection "users");
                ("B", subscribe_to_collection "posts") ] "users" "u1" JNull)
    as [Hevents _].
  destruct (Hevents "document-created" JNull) as (_ & _ & Hisolated).
  apply (Hisolated "B" "posts"); [discriminate | reflexivity | reflexivity].
Defined.

(** C8. Subscribe is idempotent, not counted: joining a room twice is
    joining it once, and after two subscribes and one unsubscribe the
    connection is not subscribed: an event published to the topic is
    not delivered to it. *)
Theorem subscribe_twice_unsubscribe_once (rooms : Rooms) c topic eventName body :
  run [ (c, subscribe_to_collection topic); (c, subscribe_to_collection topic) ] rooms
  = run [ (c, subscribe_to_collection topic) ] rooms
  /\ c ∉ map recipient
           (emitTo (run [ (c, subscribe_to_collection topic);
                          (c, subscribe_to_collection topic);
                          (c, unsubscribe_from_collection topic) ] rooms)
              (collectionRoom topic) eventName body).
Proof.
  split.
  - cbn. unfold join, members. rewrite lookup_insert_eq. cbn.
    rewrite insert_insert_eq. f_equal. set_solver.
  - rewrite elem_of_recipients, subscribed_run. cbn [subscribedAfter].
    rewrite !String.eqb_refl. cbn. discriminate.
Qed.

(** C9. A subscription does not outlive its connection: once a
    connection that subscribed to a topic is closed it is in no room at
    all, so an event published to any topic is not delivered to it; and
    if it was the only subscriber, the event is delivered to nobody. *)
Theorem closed_connection_receives_nothing (rooms : Rooms) c topic eventName body :
  (forall room, c ∉ members (run [ (c, subscribe_to_collection topic); (c, disconnect) ] rooms) room)
  /\ (forall other,
        c ∉ map recipient
              (emitTo (run [ (c, subscribe_to_collection topic); (c, disconnect) ] rooms)
                 (collectionRoom other) eventName body))
  /\ emitTo (run [ (c, subscribe_to_collection topic); (c, disconnect) ] ∅)
        (collectionRoom topic) eventName body = [].
Proof.
  assert (forall (rs : Rooms) room,
            c ∉ members (run [ (c, subscribe_to_collection topic); (c, disconnect) ] rs) room)
    as Hgone.
  { intros rs room. cbn [run fold_left fst snd onClientEvent]; unfold onDisconnect.
    rewrite elem_of_members_leaveAll. naive_solver. }
  split; [apply Hgone|]. split.
  - intros other. rewrite recipients_emitTo, elem_of_elements. apply Hgone.
  - unfold emitTo.
    assert (members (run [ (c, subscribe_to_collection topic); (c, disconnect) ] ∅)
              (collectionRoom topic) = ∅) as ->.
    { apply set_eq. intros x. cbn [run fold_left fst snd onClientEvent]; unfold onDisconnect.
      rewrite elem_of_members_leaveAll, elem_of_members_join, members_empty.
      set_solver. }
    rewrite elements_empty. reflexivity.
Qed.

(* ===================================================================== *)
(** ** More on the normaliser                                              *)
(* ===================================================================== *)

(** [errors.map] over issues none of which is [null] or [undefined]. *)
Lemma mapIssues_objects issues :
  Forall (fun issue => issue <> JNull /\ issue <> JUndefined) issues ->
  mapIssues issues
  = Ok (map (fun err =>
               JObj [ ("field", or_else (getProp "param" err) (getProp "path" err));
                      ("message", getProp "msg" err);
                      ("value", getProp "value" err) ])
          issues).
Proof.
  induction 1 as [|issue issues [Hnull Hundef] _ IH]; [reflexivity|].
  cbn [mapIssues map]. rewrite IH.
  destruct issue; try reflexivity; contradiction.
Qed.

(** Where the normaliser raises, and where it cannot. A fault that is
    not operational and carries a non-zero number as its code makes it
    raise a [TypeError] at [error.code.startsWith], whatever the fault's
    name and shape, and [errorHandler] then raises too, without
    answering. A fault whose code is absent, null, a string or zero, and
    whose validation issues (if it has any) are neither null nor
    undefined, is always normalised. *)
Theorem numeric_code_raises env stk now error req :
  (forall n,
     isOperational error = false -> code error = CNum n -> n <> 0 ->
     formatError env stk error = Throw (TypeError "error.code.startsWith is not a function")
     /\ errorHandler env stk now error req false
        = Throw (TypeError "error.code.startsWith is not a function"))
  /\ ((forall n, code error = CNum n -> n = 0) ->
      (forall issues, array error = Some issues ->
                      Forall (fun issue => issue <> JNull /\ issue <> JUndefined) issues) ->
      exists fe, formatError env stk error = Ok fe).
Proof.
  split.
  - intros n Hop Hcode Hn.
    assert (formatError env stk error
            = Throw (TypeError "error.code.startsWith is not a function")) as Hthrown.
    { unfold formatError. rewrite Hop, Hcode. cbn.
      apply Z.eqb_neq in Hn. rewrite Hn. reflexivity. }
    split; [exact Hthrown|]. unfold errorHandler. rewrite Hthrown. reflexivity.
  - intros Hcode Hissues. unfold formatError.
    destruct (isOperational error); [eauto|].
    assert (exists fe, formatValidationError stk error = Ok fe) as [ve Hve].
    { unfold formatValidationError. destruct (array error) as [issues|]; [|eauto].
      rewrite (mapIssues_objects issues (Hissues issues eq_refl)). cbn [bind]. eauto. }
    rewrite Hve.
    destruct (code error) as [| |s|n] eqn:Hc.
    1-3: cbn; case_conditions; eauto.
    rewrite (Hcode n eq_refl). cbn. case_conditions; eauto.
Qed.

Lemma numeric_code_raises_witness :
  formatError None "" (plainError "MongoServerError" "E11000 duplicate key" (CNum 11000))
  = Throw (TypeError "error.code.startsWith is not a function")
  /\ errorHandler None "" sampleNow
       (plainError "MongoServerError" "E11000 duplicate key" (CNum 11000)) sampleRequest false
     = Throw (TypeError "error.code.startsWith is not a function").
Proof.
  destruct (numeric_code_raises None "" sampleNow
              (plainError "MongoServerError" "E11000 duplicate key" (CNum 11000))
              sampleRequest) as [Hraises _].
  apply (Hraises 11000); [reflexivity | reflexivity | discriminate].
Defined.

Lemma table_status_range (table : list (string * Mapping)) s m :
  Forall (fun entry => 400 <= m_status (snd entry) <= 504) table ->
  ownEntry s table = Some m -> 400 <= m_status m <= 504.
Proof.
  induction 1 as [|[k e] rest Hhd _ IH]; cbn; [discriminate|].
  destruct (String.eqb s k); [intros [= <-]; exact Hhd | exact IH].
Qed.

Lemma FIREBASE_ERROR_CODES_range :
  Forall (fun entry => 400 <= m_status (snd entry) <= 504) FIREBASE_ERROR_CODES.
Proof. unfold FIREBASE_ERROR_CODES. repeat constructor; cbn; lia. Qed.

Lemma jwtErrors_range :
  Forall (fun entry => 400 <= m_status (snd entry) <= 504) jwtErrors.
Proof. unfold jwtErrors. repeat constructor; cbn; lia. Qed.

Lemma multerErrors_range :
  Forall (fun entry => 400 <= m_status (snd entry) <= 504) multerErrors.
Proof. unfold multerErrors. repeat constructor; cbn; lia. Qed.

Lemma lookup_status_range (table : list (string * Mapping)) s :
  Forall (fun entry => 400 <= m_status (snd entry) <= 504) table ->
  match literalLookup table s with
  | Own m => 400 <= m_status m <= 504
  | _ => True
  end.
Proof.
  intros Htable. unfold literalLookup.
  destruct (ownEntry s table) as [m|] eqn:Hm.
  - exact (table_status_range table s m Htable Hm).
  - now destruct (existsb _ _).
Qed.

Lemma formatFirebaseError_status stk error :
  exists n, statusCode (formatFirebaseError stk error) = Some n /\ 400 <= n <= 504.
Proof.
  unfold formatFirebaseError, codeLookup.
  set (errorCode := if truthyCode (code error) then code error else errorInfo_code error).
  destruct errorCode as [| |s|n]; try (eexists; split; [reflexivity|lia]).
  pose proof (lookup_status_range FIREBASE_ERROR_CODES s FIREBASE_ERROR_CODES_range) as H.
  destruct (literalLookup FIREBASE_ERROR_CODES s); eexists; (split; [reflexivity|]);
    first [exact H | lia].
Qed.

(** The status of what the normaliser builds is an HTTP error status. *)
Lemma formatError_status env stk error fe :
  isOperational error = false ->
  formatError env stk error = Ok fe ->
  exists n, statusCode fe = Some n /\ 400 <= n <= 504.
Proof.
  intros Hop. unfold formatError. rewrite Hop.
  destruct (codeStartsWith (code error) "auth/") as [b1|]; cbn [bind]; [|discriminate].
  destruct b1; [intros [= <-]; apply formatFirebaseError_status|].
  destruct (_ || _); [intros [= <-]; apply formatFirebaseError_status|].
  destruct (_ || _).
  { unfold formatValidationError.
    destruct (array error) as [errors|];
      [destruct (mapIssues errors); cbn [bind]; [|discriminate]|];
      intros [= <-]; eexists; (split; [reflexivity|lia]). }
  destruct (_ || _).
  { intros [= <-]. unfold formatMongoError.
    destruct (code error) as [| | |n]; try (eexists; split; [reflexivity|lia]).
    destruct n as [|p|p]; try (eexists; split; [reflexivity|lia]).
    repeat (destruct p as [p|p|]; try (eexists; split; [reflexivity|lia])). }
  destruct (_ && _).
  { intros [= <-]. unfold formatJWTError.
    pose proof (lookup_status_range jwtErrors (name error) jwtErrors_range) as H.
    destruct (literalLookup jwtErrors (name error)); eexists; (split; [reflexivity|]);
      first [exact H | lia]. }
  destruct (codeStartsWith (code error) "LIMIT_") as [b6|]; cbn [bind]; [|discriminate].
  destruct b6.
  { intros [= <-]. unfold formatMulterError, codeLookup.
    destruct (code error) as [| |s|n]; try (eexists; split; [reflexivity|lia]).
    pose proof (lookup_status_range multerErrors s multerErrors_range) as H.
    destruct (literalLookup multerErrors s); eexists; (split; [reflexivity|]);
      first [exact H | lia]. }
  destruct (String.eqb _ _); [intros [= <-]; eexists; split; [reflexivity|lia]|].
  destruct (_ && _); intros [= <-]; eexists; (split; [reflexivity|lia]).
Qed.

(** Whatever fault reaches the error boundary without being operational,
    the status the handler writes is an HTTP error status between 400
    and 504, and it is the statusCode of the normalised error. *)
Theorem error_status_in_range env stk now error req sev status body :
  isOperational error = false ->
  errorHandler env stk now error req false = Ok (sev, Responded status body) ->
  400 <= status <= 504
  /\ exists fe, formatError env stk error = Ok fe /\ statusCode fe = Some status.
Proof.
  intros Hop. unfold errorHandler.
  destruct (formatError env stk error) as [fe|] eqn:Hfe; cbn [bind]; [|discriminate].
  destruct (validStatus (statusOr500 fe)); [|discriminate].
  intros [= _ <- _].
  destruct (formatError_status env stk error fe Hop Hfe) as (n & Hn & Hrange).
  unfold statusOr500. rewrite Hn.
  destruct (Z.eqb_spec n 0) as [->|_]; [lia|]. eauto.
Qed.

Lemma error_status_in_range_witness :
  400 <= 503 <= 504
  /\ exists fe,
       formatError (Some "production") "" (plainError "Error" "quota" (CStr "unavailable")) = Ok fe
       /\ statusCode fe = Some 503.
Proof.
  eapply (error_status_in_range (Some "production") "" sampleNow
            (plainError "Error" "quota" (CStr "unavailable")) sampleRequest).
  - reflexivity.
  - reflexivity.
Defined.

(** For a fault that is not operational, the handler logs at error
    level exactly when the status it writes is 500 or more, and at
    warning level otherwise. *)
Theorem severity_follows_status env stk now error req sev status body :
  isOperational error = false ->
  errorHandler env stk now error req false = Ok (sev, Responded status body) ->
  sev = Some (if 500 <=? status then LogError else LogWarn).
Proof.
  intros Hop. unfold errorHandler.
  destruct (formatError env stk error) as [fe|] eqn:Hfe; cbn [bind]; [|discriminate].
  destruct (validStatus (statusOr500 fe)); [|discriminate].
  intros [= <- <- _].
  destruct (formatError_status env stk error fe Hop Hfe) as (n & Hn & Hrange).
  unfold logSeverity, statusOr500. rewrite Hn.
  destruct (Z.eqb_spec n 0) as [->|_]; [lia|]. reflexivity.
Qed.

Lemma severity_follows_status_witness :
  exists body,
    errorHandler None "" sampleNow (plainError "Error" "missing" (CStr "not-found"))
      sampleRequest false
    = Ok (Some LogWarn, Responded 404 body)
    /\ Some LogWarn = Some (if 500 <=? 404 then LogError else LogWarn).
Proof.
  eexists. split; [reflexivity|].
  eapply (severity_follows_status None "" sampleNow
            (plainError "Error" "missing" (CStr "not-found")) sampleRequest).
  - reflexivity.
  - reflexivity.
Defined.

(** An operational error without a usable statusCode (missing, or
    zero) is answered with status 500, yet logged as a warning. *)
Theorem operational_without_status env stk now error req :
  isOperational error = true ->
  statusCode error = None \/ statusCode error = Some 0 ->
  errorHandler env stk now error req false
  = Ok (Some LogWarn, Responded 500 (responseBody env now error error req))
  /\ getProp "statusCode" (getProp "error" (responseBody env now error error req)) = JNum 500.
Proof.
  intros Hop Hstatus. unfold errorHandler.
  rewrite (formatError_operational env stk error Hop). cbn [bind].
  unfold responseBody, logSeverity, statusOr500.
  destruct Hstatus as [-> | ->]; cbn; split; reflexivity.
Qed.

Lemma operational_without_status_witness :
  errorHandler None "" sampleNow haltedError sampleRequest false
  = Ok (Some LogWarn, Responded 500 (responseBody None sampleNow haltedError haltedError sampleRequest))
  /\ getProp "statusCode"
       (getProp "error" (responseBody None sampleNow haltedError haltedError sampleRequest))
     = JNum 500.
Proof.
  apply (operational_without_status None "" sampleNow haltedError sampleRequest).
  - reflexivity.
  - right. reflexivity.
Defined.

(** Keys of the error tables are neither empty nor names every object
    inherits. *)
Lemma FIREBASE_ERROR_CODES_own s m :
  ownEntry s FIREBASE_ERROR_CODES = Some m -> s <> "".
Proof. intros H ->. discriminate H. Qed.

(** Every entry of the Firebase table applies to every fault carrying
    its key as code, whatever the fault's name: the result has the
    entry's status and message, keeps the code, and carries the fault's
    own message as details. *)
Theorem firebase_entry_applies env stk error s m :
  isOperational error = false ->
  code error = CStr s ->
  ownEntry s FIREBASE_ERROR_CODES = Some m ->
  formatError env stk error
  = Ok (APIError stk (Some (m_message m)) (Some (m_status m)) (CStr s)
          (JStr (message error))).
Proof.
  intros Hop Hcode Hown.
  pose proof (FIREBASE_ERROR_CODES_own s m Hown) as Hs.
  rewrite (formatError_string_code env stk error s Hop Hcode Hs).
  unfold formatFirebaseError. rewrite Hcode.
  assert (truthyCode (CStr s) = true) as ->.
  { cbn. apply String.eqb_neq in Hs. now rewrite Hs. }
  unfold codeLookup, literalLookup. rewrite Hown. reflexivity.
Qed.

Lemma firebase_entry_applies_witness :
  formatError None "" (plainError "TypeError" "exists" (CStr "already-exists"))
  = Ok (APIError "" (Some "Document already exists") (Some 409) (CStr "already-exists")
          (JStr "exists")).
Proof.
  apply (firebase_entry_applies None "" (plainError "TypeError" "exists" (CStr "already-exists"))
           "already-exists" (mkMapping 409 "Document already exists"));
    reflexivity.
Defined.

(** A fault carrying an express-validator result (and no code), whose
    issues are neither null nor undefined, becomes a 400
    "validation-error" whose details list one entry per issue, in
    order: the issue's param, or else its path, as field, its msg as
    message and its value. *)
Theorem validation_result_details env stk error issues :
  isOperational error = false ->
  truthyCode (code error) = false ->
  name error <> "FirebaseError" ->
  array error = Some issues ->
  Forall (fun issue => issue <> JNull /\ issue <> JUndefined) issues ->
  exists fe errors,
    formatError env stk error = Ok fe
    /\ statusCode fe = Some 400
    /\ code fe = CStr "validation-error"
    /\ message fe = "Validation failed"
    /\ details fe = JObj [ ("errors", JArr errors) ]
    /\ length errors = length issues
    /\ (forall (i : nat) issue, issues !! i = Some issue ->
        exists entry,
          errors !! i = Some entry
          /\ getProp "field" entry
             = (if truthy (getProp "param" issue) then getProp "param" issue
                else getProp "path" issue)
          /\ getProp "message" entry = getProp "msg" issue
          /\ getProp "value" entry = getProp "value" issue).
Proof.
  intros Hop Hcode Hname Harray Hissues.
  unfold formatError. rewrite Hop, (codeStartsWith_falsy _ _ Hcode), Hcode. cbn [bind].
  apply String.eqb_neq in Hname. rewrite Hname. cbn [orb].
  rewrite Harray.
  rewrite (bool_decide_eq_true_2 (is_Some (Some issues))) by eauto.
  rewrite orb_true_r.
  unfold formatValidationError. rewrite Harray, (mapIssues_objects issues Hissues).
  cbn [bind].
  eexists. eexists. split; [reflexivity|].
  cbn [APIError statusCode code message details].
  do 4 (split; [reflexivity|]).
  split; [apply length_map|].
  intros i issue Hi.
  eexists. split.
  - rewrite list_lookup_fmap, Hi. reflexivity.
  - repeat split; reflexivity.
Qed.

Lemma validation_result_details_witness :
  exists fe errors,
    formatError None "" {| name := "Error"; message := ""; stack := None; code := CUndefined;
                           errorInfo_code := CUndefined; array := Some [ sampleIssue ];
                           isOperational := false; statusCode := None; details := JUndefined |}
    = Ok fe
    /\ statusCode fe = Some 400
    /\ code fe = CStr "validation-error"
    /\ message fe = "Validation failed"
    /\ details fe = JObj [ ("errors", JArr errors) ]
    /\ length errors = 1%nat
    /\ (forall (i : nat) issue, [ sampleIssue ] !! i = Some issue ->
        exists entry,
          errors !! i = Some entry
          /\ getProp "field" entry
             = (if truthy (getProp "param" issue) then getProp "param" issue
                else getProp "path" issue)
          /\ getProp "message" entry = getProp "msg" issue
          /\ getProp "value" entry = getProp "value" issue).
Proof.
  apply (validation_result_details None ""
           {| name := "Error"; message := ""; stack := None; code := CUndefined;
              errorInfo_code := CUndefined; array := Some [ sampleIssue ];
              isOperational := false; statusCode := None; details := JUndefined |}
           [ sampleIssue ]).
  - reflexivity.
  - reflexivity.
  - discriminate.
  - reflexivity.
  - repeat constructor; discriminate.
Defined.

(** The duplicate-key answers of [formatMongoError] are out of reach of
    the dispatch: no fault that is not operational is ever normalised to
    a 409 coded "duplicate-key". *)
Theorem duplicate_key_unreachable env stk error fe :
  isOperational error = false ->
  formatError env stk error = Ok fe ->
  ~ (statusCode fe = Some 409 /\ code fe = CStr "duplicate-key").
Proof.
  intros Hop. unfold formatError. rewrite Hop.
  assert (forall e, ~ (statusCode (formatFirebaseError stk e) = Some 409
                       /\ code (formatFirebaseError stk e) = CStr "duplicate-key")) as Hfb.
  { intros e [Hs Hc]. unfold formatFirebaseError, codeLookup in Hs, Hc.
    set (errorCode := if truthyCode (code e) then code e else errorInfo_code e) in *.
    destruct errorCode as [| |s|n]; try discriminate Hs.
    unfold literalLookup in Hs, Hc.
    destruct (ownEntry s FIREBASE_ERROR_CODES) as [m|] eqn:Hown.
    - cbn in Hc. destruct (String.eqb s "") eqn:Hempty; cbn in Hc.
      + injection Hc as ->. discriminate Hown.
      + injection Hc as ->. discriminate Hown.
    - destruct (existsb _ _); discriminate Hs. }
  destruct (codeStartsWith (code error) "auth/") as [b1|]; cbn [bind]; [|discriminate].
  destruct b1; [intros [= <-]; apply Hfb|].
  destruct (String.eqb (name error) "FirebaseError" || truthyCode (code error)) eqn:Hguard;
    [intros [= <-]; apply Hfb|].
  apply orb_false_iff in Hguard as [_ Hcode].
  destruct (_ || _).
  { unfold formatValidationError.
    destruct (array error) as [errors|];
      [destruct (mapIssues errors); cbn [bind]; [|discriminate]|];
      intros [= <-] [Hs _]; discriminate Hs. }
  destruct (_ || _).
  { intros [= <-] [Hs _]. unfold formatMongoError in Hs.
    destruct (code error) as [| | |n]; try discriminate Hs.
    cbn in Hcode. apply negb_false_iff, Z.eqb_eq in Hcode. subst n.
    discriminate Hs. }
  destruct (_ && _).
  { intros [= <-] [_ Hc]. unfold formatJWTError in Hc.
    destruct (literalLookup jwtErrors (name error)); discriminate Hc. }
  destruct (codeStartsWith (code error) "LIMIT_") as [b6|]; cbn [bind]; [|discriminate].
  destruct b6.
  { intros [= <-] [_ Hc]. unfold formatMulterError in Hc.
    destruct (codeLookup multerErrors (code error)); discriminate Hc. }
  destruct (String.eqb _ _); [intros [= <-] [Hs _]; discriminate Hs|].
  destruct (_ && _); intros [= <-] [Hs _]; discriminate Hs.
Qed.

Lemma duplicate_key_unreachable_witness :
  ~ (statusCode (APIError "" (Some "E11000") (Some 500) (CStr "database-error") JUndefined)
     = Some 409
     /\ code (APIError "" (Some "E11000") (Some 500) (CStr "database-error") JUndefined)
        = CStr "duplicate-key").
Proof.
  apply (duplicate_key_unreachable None "" (plainError "MongoServerError" "E11000" (CNum 0))).
  - reflexivity.
  - reflexivity.
Defined.

Lemma limit_code_unmapped s :
  startsWith "LIMIT_" s = true ->
  s <> "" /\ literalLookup FIREBASE_ERROR_CODES s = Missing.
Proof.
  unfold startsWith. destruct s as [|a s]; cbn [String.prefix]; [discriminate|].
  destruct (Ascii.ascii_dec "L"%char a) as [<-|]; [|discriminate].
  intros _. split; [discriminate | reflexivity].
Qed.

(** An upload-limit fault (a code starting with "LIMIT_") never gets
    the statuses of [formatMulterError]: the dispatch hands every coded
    fault to [formatFirebaseError], so it is answered 500 under its own
    code. *)
Theorem upload_limit_is_500 env stk error s :
  isOperational error = false ->
  code error = CStr s ->
  startsWith "LIMIT_" s = true ->
  formatError env stk error
  = Ok (APIError stk (Some (messageOr (message error) "Firebase operation failed"))
          (Some 500) (CStr s) (optStr (stack error))).
Proof.
  intros Hop Hcode Hlimit.
  destruct (limit_code_unmapped s Hlimit) as [Hs Hmissing].
  rewrite (formatError_string_code env stk error s Hop Hcode Hs).
  unfold formatFirebaseError. rewrite Hcode.
  assert (truthyCode (CStr s) = true) as Ht.
  { cbn. apply String.eqb_neq in Hs. now rewrite Hs. }
  rewrite Ht. unfold codeLookup. rewrite Hmissing, Ht. reflexivity.
Qed.

Lemma upload_limit_is_500_witness :
  formatError None "" (plainError "MulterError" "File too large" (CStr "LIMIT_FILE_SIZE"))
  = Ok (APIError "" (Some "File too large") (Some 500) (CStr "LIMIT_FILE_SIZE")
          (JStr "Error: at handler")).
Proof.
  apply (upload_limit_is_500 None ""
           (plainError "MulterError" "File too large" (CStr "LIMIT_FILE_SIZE"))
           "LIMIT_FILE_SIZE"); reflexivity.
Defined.

(** An expired or not-yet-active token fault does not reach
    [formatJWTError], whose test asks for "JsonWebToken" in the name: it
    is answered as a generic 500 "internal-server-error". *)
Theorem expired_token_is_500 env stk error :
  isOperational error = false ->
  truthyCode (code error) = false ->
  array error = None ->
  name error = "TokenExpiredError" \/ name error = "NotBeforeError" ->
  formatError env stk error
  = Ok (APIError stk
          (Some (if production env then "Internal server error" else message error))
          (Some 500) (CStr "internal-server-error")
          (if negb (production env) then optStr (stack error) else JUndefined)).
Proof.
  intros Hop Hcode Harray Hname.
  unfold formatError.
  rewrite Hop, !(codeStartsWith_falsy _ _ Hcode), Hcode, Harray. cbn [bind].
  destruct Hname as [-> | ->]; reflexivity.
Qed.

Lemma expired_token_is_500_witness :
  formatError (Some "production") "" (plainError "TokenExpiredError" "jwt expired" CUndefined)
  = Ok (APIError "" (Some "Internal server error") (Some 500)
          (CStr "internal-server-error") JUndefined).
Proof.
  apply (expired_token_is_500 (Some "production") ""
           (plainError "TokenExpiredError" "jwt expired" CUndefined)).
  - reflexivity.
  - reflexivity.
  - reflexivity.
  - left. reflexivity.
Defined.

Lemma includes_JsonWebToken_names n :
  includes "JsonWebToken" n = true ->
  n <> "" /\ n <> "FirebaseError" /\ n <> "ValidationError"
  /\ n <> "MongoError" /\ n <> "MongoServerError"
  /\ n <> "TokenExpiredError" /\ n <> "NotBeforeError"
  /\ existsb (String.eqb n) objectPrototypeKeys = false.
Proof.
  intros H.
  repeat split; try (intros ->; vm_compute in H; discriminate H).
  destruct (existsb (String.eqb n) objectPrototypeKeys) eqn:Hk; [|reflexivity].
  apply existsb_exists in Hk as (k & Hin & Heq).
  apply String.eqb_eq in Heq. subst k.
  cbn in Hin.
  repeat (destruct Hin as [<- | Hin]; [vm_compute in H; discriminate H|]).
  destruct Hin.
Qed.

(** Of the token faults only those whose name contains "JsonWebToken"
    are answered 401: as "jwt-error" with "Invalid token" when the name
    is exactly JsonWebTokenError, as "auth-error" otherwise. *)
Theorem json_web_token_is_401 env stk error :
  isOperational error = false ->
  truthyCode (code error) = false ->
  array error = None ->
  includes "JsonWebToken" (name error) = true ->
  formatError env stk error
  = Ok (if String.eqb (name error) "JsonWebTokenError"
        then APIError stk (Some "Invalid token") (Some 401) (CStr "jwt-error") JUndefined
        else APIError stk (Some "Authentication failed") (Some 401) (CStr "auth-error")
               JUndefined).
Proof.
  intros Hop Hcode Harray Hjwt.
  destruct (includes_JsonWebToken_names _ Hjwt)
    as (He & Hfb & Hval & Hm & Hms & Hexp & Hnb & Hproto).
  unfold formatError.
  rewrite Hop, (codeStartsWith_falsy _ _ Hcode), Hcode, Harray, Hjwt. cbn [bind].
  apply String.eqb_neq in He, Hfb, Hval, Hm, Hms.
  rewrite He, Hfb, Hval, Hm, Hms. cbn [orb andb negb].
  rewrite (bool_decide_eq_false_2 (is_Some None)) by (intros [? [=]]).
  cbn [orb].
  unfold formatJWTError, literalLookup. cbn [ownEntry jwtErrors].
  destruct (String.eqb (name error) "JsonWebTokenError"); [reflexivity|].
  apply String.eqb_neq in Hexp, Hnb. rewrite Hexp, Hnb, Hproto. reflexivity.
Qed.

Lemma json_web_token_is_401_witness :
  formatError None "" (plainError "JsonWebTokenError" "jwt malformed" CUndefined)
  = Ok (APIError "" (Some "Invalid token") (Some 401) (CStr "jwt-error") JUndefined).
Proof.
  apply (json_web_token_is_401 None "" (plainError "JsonWebTokenError" "jwt malformed" CUndefined));
    reflexivity.
Defined.

(** In production mode no response written at the error boundary
    carries the fault's stack or the details of the normalised error:
    the envelope has its six fields and no other. *)
Theorem production_hides_diagnostics env stk now error req sev status body :
  production env = true ->
  errorHandler env stk now error req false = Ok (sev, Responded status body) ->
  keys (getProp "error" body) = envelopeFields
  /\ getProp "details" (getProp "error" body) = JUndefined
  /\ getProp "stack" (getProp "error" body) = JUndefined.
Proof.
  intros Hprod. unfold errorHandler.
  destruct (formatError env stk error) as [fe|]; cbn [bind]; [|discriminate].
  destruct (validStatus (statusOr500 fe)); [|discriminate].
  intros [= _ _ <-]. unfold responseBody. rewrite Hprod. cbn.
  repeat split; reflexivity.
Qed.

Lemma production_hides_diagnostics_witness :
  exists body,
    errorHandler (Some "production") "" sampleNow (plainError "Error" "boom" CUndefined)
      sampleRequest false
    = Ok (Some LogError, Responded 500 body)
    /\ keys (getProp "error" body) = envelopeFields
    /\ getProp "details" (getProp "error" body) = JUndefined
    /\ getProp "stack" (getProp "error" body) = JUndefined.
Proof.
  eexists. split; [reflexivity|].
  eapply (production_hides_diagnostics (Some "production") "" sampleNow
            (plainError "Error" "boom" CUndefined) sampleRequest).
  - reflexivity.
  - reflexivity.
Defined.

(* ===================================================================== *)
(** ** The writing routes                                                  *)
(* ===================================================================== *)

(** An operational error rejected by a handler is answered by the error
    boundary under its own status, code and message. *)
Lemma dispatch_rejected_operational env stk now req error :
  isOperational error = true ->
  validStatus (statusOr500 error) = true ->
  dispatch env stk now req [] (Rejected error)
  = Ok (Responded (statusOr500 error) (responseBody env now error error req)).
Proof.
  intros Hop Hvalid. unfold dispatch. cbn [validateRequest asyncHandler].
  unfold errorHandler. rewrite (formatError_operational env stk error Hop). cbn [bind].
  rewrite Hvalid. reflexivity.
Qed.

(** [PUT]: an event is emitted only once the store has acknowledged the
    write and returned the updated document. If ["document-updated"]
    goes out at all, the document existed, [set] was called with the
    request's data stamped [updatedAt] and succeeded, as did the read
    after it, the response is the 200 and the event went to the room of
    the collection with the data read back. *)
Theorem update_emits_only_after_write stk db io collectionId documentId data :
  emitted (updateDocument stk db io collectionId documentId data) <> [] ->
  exists docRef rooms existingDoc updatedDoc body,
    db = Some docRef /\ io = Some rooms
    /\ ref_get docRef = Returns existingDoc /\ doc_exists existingDoc = true
    /\ ref_write docRef = Returns tt
    /\ ref_reread docRef = Returns updatedDoc
    /\ calls (updateDocument stk db io collectionId documentId data)
       = [ CallGet collectionId documentId;
           CallSet collectionId documentId (stamped data);
           CallGet collectionId documentId ]
    /\ response (updateDocument stk db io collectionId documentId data) = Wrote 200 body
    /\ emitted (updateDocument stk db io collectionId documentId data)
       = emitTo rooms (collectionRoom collectionId) "document-updated"
           (JObj [ ("collection", JStr collectionId); ("documentId", JStr documentId);
                   ("data", doc_data updatedDoc) ]).
Proof.
  unfold updateDocument.
  destruct db as [docRef|]; [|intros []; reflexivity].
  destruct (ref_get docRef) as [e|existingDoc] eqn:Hget; [intros []; reflexivity|].
  destruct (doc_exists existingDoc) eqn:Hex; cbn [negb]; [|intros []; reflexivity].
  destruct (ref_write docRef) as [e|[]] eqn:Hset; [intros []; reflexivity|].
  destruct (ref_reread docRef) as [e|updatedDoc] eqn:Hre; [intros []; reflexivity|].
  destruct io as [rooms|]; [|intros []; reflexivity].
  intros _. exists docRef, rooms, existingDoc, updatedDoc. eexists.
  repeat split; try reflexivity; assumption.
Qed.

Lemma update_emits_only_after_write_witness :
  exists docRef rooms existingDoc updatedDoc body,
    Some (mkDocRef (Returns (mkSnapshot true "u1" JNull JNull JNull JNull)) (Returns tt)
            (Returns (mkSnapshot true "u1" (JStr "new") JNull JNull JNull)))
    = Some docRef
    /\ Some (run [ ("A", subscribe_to_collection "users") ] ∅) = Some rooms
    /\ ref_get docRef = Returns existingDoc /\ doc_exists existingDoc = true
    /\ ref_write docRef = Returns tt
    /\ ref_reread docRef = Returns updatedDoc
    /\ calls (updateDocument ""
                (Some (mkDocRef (Returns (mkSnapshot true "u1" JNull JNull JNull JNull))
                         (Returns tt)
                         (Returns (mkSnapshot true "u1" (JStr "new") JNull JNull JNull))))
                (Some (run [ ("A", subscribe_to_collection "users") ] ∅))
                "users" "u1" (JObj [ ("name", JStr "Ada") ]))
       = [ CallGet "users" "u1";
           CallSet "users" "u1" [ ("name", Plain (JStr "Ada")); ("updatedAt", CurrentDate) ];
           CallGet "users" "u1" ]
    /\ response (updateDocument ""
                (Some (mkDocRef (Returns (mkSnapshot true "u1" JNull JNull JNull JNull))
                         (Returns tt)
                         (Returns (mkSnapshot true "u1" (JStr "new") JNull JNull JNull))))
                (Some (run [ ("A", subscribe_to_collection "users") ] ∅))
                "users" "u1" (JObj [ ("name", JStr "Ada") ])) = Wrote 200 body
    /\ emitted (updateDocument ""
                (Some (mkDocRef (Returns (mkSnapshot true "u1" JNull JNull JNull JNull))
                         (Returns tt)
                         (Returns (mkSnapshot true "u1" (JStr "new") JNull JNull JNull))))
                (Some (run [ ("A", subscribe_to_collection "users") ] ∅))
                "users" "u1" (JObj [ ("name", JStr "Ada") ]))
       = emitTo rooms (collectionRoom "users") "document-updated"
           (JObj [ ("collection", JStr "users"); ("documentId", JStr "u1");
                   ("data", doc_data updatedDoc) ]).
Proof.
  apply (update_emits_only_after_write ""
           (Some (mkDocRef (Returns (mkSnapshot true "u1" JNull JNull JNull JNull))
                    (Returns tt)
                    (Returns (mkSnapshot true "u1" (JStr "new") JNull JNull JNull))))
           (Some (run [ ("A", subscribe_to_collection "users") ] ∅))
           "users" "u1" (JObj [ ("name", JStr "Ada") ])).
  vm_compute. discriminate.
Defined.

(** What [{ ...data, updatedAt: new Date() }] holds for an object: the
    current date under [updatedAt], whether or not the data had that
    key, and every other field of the data unchanged. *)
Lemma stamped_object fields :
  (exists before after,
     stamped (JObj fields) = (before ++ ("updatedAt", CurrentDate) :: after)%list
     /\ Forall (fun kv => fst kv <> "updatedAt") before)
  /\ forall k v,
       k <> "updatedAt" ->
       In (k, v) fields -> In (k, Plain v) (stamped (JObj fields)).
Proof.
  unfold stamped. cbn [spread]. split.
  - induction fields as [|[k v] rest (before & after & Heq & Hbefore)]; cbn [map assign fst snd].
    + exists [], []. split; [reflexivity | constructor].
    + destruct (String.eqb_spec "updatedAt" k) as [<-|Hk].
      * exists [], (map (fun kv => (fst kv, Plain (snd kv))) rest).
        split; [reflexivity | constructor].
      * exists ((k, Plain v) :: before), after. rewrite Heq.
        split; [reflexivity|]. constructor; [cbn; congruence | exact Hbefore].
  - intros k v Hk. induction fields as [|[k' v'] rest IH]; [intros []|].
    cbn [map assign fst snd].
    destruct (String.eqb_spec "updatedAt" k') as [<-|Hk'].
    + intros [[= <- _] | Hin]; [contradiction|].
      right. apply (in_map (fun kv => (fst kv, Plain (snd kv))) rest (k, v) Hin).
    + intros [[= <- <-] | Hin]; [left; reflexivity | right; exact (IH Hin)].
Qed.

(** [PUT]: when the write succeeds but the read after it fails, the
    document has been written (with the request's data, stamped
    [updatedAt]), yet the handler rejects with a 500
    "firestore-update-error", which the error boundary answers as such,
    and no subscriber is told. *)
Theorem update_written_but_unreported env stk now req docRef io collectionId documentId
    data existingDoc fault :
  ref_get docRef = Returns existingDoc ->
  doc_exists existingDoc = true ->
  ref_write docRef = Returns tt ->
  ref_reread docRef = Throws fault ->
  In (CallSet collectionId documentId (stamped data))
     (calls (updateDocument stk (Some docRef) io collectionId documentId data))
  /\ emitted (updateDocument stk (Some docRef) io collectionId documentId data) = []
  /\ exists error body,
       asyncHandler (response (updateDocument stk (Some docRef) io collectionId documentId data))
       = Next (Some error)
       /\ errorHandler env stk now error req false = Ok (Some LogError, Responded 500 body)
       /\ getProp "code" (getProp "error" body) = JStr "firestore-update-error"
       /\ getProp "message" (getProp "error" body)
          = JStr ("Failed to update document " +:+ documentId +:+ " in collection "
                  +:+ collectionId).
Proof.
  intros Hget Hex Hset Hre. unfold updateDocument.
  rewrite Hget, Hex, Hset, Hre. cbn [negb calls emitted response asyncHandler].
  split; [right; left; reflexivity|]. split; [reflexivity|].
  eexists. eexists. split; [reflexivity|].
  unfold errorHandler. rewrite formatError_operational by reflexivity.
  split; [reflexivity|]. split; reflexivity.
Qed.

Lemma update_written_but_unreported_witness :
  In (CallSet "users" "u1" [ ("name", Plain (JStr "Ada")); ("updatedAt", CurrentDate) ])
     (calls (updateDocument ""
               (Some (mkDocRef (Returns (mkSnapshot true "u1" JNull JNull JNull JNull))
                        (Returns tt) (Throws (plainError "Error" "deadline" CUndefined))))
               None "users" "u1" (JObj [ ("name", JStr "Ada") ])))
  /\ emitted (updateDocument ""
               (Some (mkDocRef (Returns (mkSnapshot true "u1" JNull JNull JNull JNull))
                        (Returns tt) (Throws (plainError "Error" "deadline" CUndefined))))
               None "users" "u1" (JObj [ ("name", JStr "Ada") ])) = []
  /\ exists error body,
       asyncHandler
         (response (updateDocument ""
               (Some (mkDocRef (Returns (mkSnapshot true "u1" JNull JNull JNull JNull))
                        (Returns tt) (Throws (plainError "Error" "deadline" CUndefined))))
               None "users" "u1" (JObj [ ("name", JStr "Ada") ])))
       = Next (Some error)
       /\ errorHandler None "" sampleNow error sampleRequest false
          = Ok (Some LogError, Responded 500 body)
       /\ getProp "code" (getProp "error" body) = JStr "firestore-update-error"
       /\ getProp "message" (getProp "error" body)
          = JStr ("Failed to update document " +:+ "u1" +:+ " in collection " +:+ "users").
Proof.
  apply (update_written_but_unreported None "" sampleNow sampleRequest
           (mkDocRef (Returns (mkSnapshot true "u1" JNull JNull JNull JNull))
              (Returns tt) (Throws (plainError "Error" "deadline" CUndefined)))
           None "users" "u1" (JObj [ ("name", JStr "Ada") ])
           (mkSnapshot true "u1" JNull JNull JNull JNull)
           (plainError "Error" "deadline" CUndefined)); reflexivity.
Defined.

(** [PUT] and [DELETE] on a document that does not exist: the answer is
    the 404 written by the handler, nothing is written to the store
    (the only call is the read) and no event is emitted. *)
Theorem missing_document_is_untouched stk docRef io collectionId documentId data existingDoc :
  ref_get docRef = Returns existingDoc ->
  doc_exists existingDoc = false ->
  updateDocument stk (Some docRef) io collectionId documentId data
  = mkRan (Wrote 404 (documentNotFound collectionId documentId)) []
      [ CallGet collectionId documentId ]
  /\ deleteDocument stk (Some docRef) io collectionId documentId
     = mkRan (Wrote 404 (documentNotFound collectionId documentId)) []
         [ CallGet collectionId documentId ].
Proof.
  intros Hget Hex. unfold updateDocument, deleteDocument.
  rewrite Hget, Hex. split; reflexivity.
Qed.

Lemma missing_document_is_untouched_witness :
  updateDocument "" (Some (mkDocRef (Returns missingSnapshot) (Returns tt) (Returns missingSnapshot)))
    None "users" "u1" JNull
  = mkRan (Wrote 404 (documentNotFound "users" "u1")) [] [ CallGet "users" "u1" ]
  /\ deleteDocument "" (Some (mkDocRef (Returns missingSnapshot) (Returns tt) (Returns missingSnapshot)))
       None "users" "u1"
     = mkRan (Wrote 404 (documentNotFound "users" "u1")) [] [ CallGet "users" "u1" ].
Proof.
  apply (missing_document_is_untouched ""
           (mkDocRef (Returns missingSnapshot) (Returns tt) (Returns missingSnapshot))
           None "users" "u1" JNull missingSnapshot); reflexivity.
Defined.

(** [DELETE]: after a successful delete the ["document-deleted"] event
    reaches exactly the connections subscribed to the collection, each
    once, and carries the data read before the deletion. *)
Theorem delete_notifies_subscribers stk docRef trace collectionId documentId existingDoc :
  ref_get docRef = Returns existingDoc ->
  doc_exists existingDoc = true ->
  ref_write docRef = Returns tt ->
  NoDup (map recipient
           (emitted (deleteDocument stk (Some docRef) (Some (run trace ∅))
                       collectionId documentId)))
  /\ (forall c,
        c ∈ map recipient
              (emitted (deleteDocument stk (Some docRef) (Some (run trace ∅))
                          collectionId documentId))
        <-> subscribedAfter trace c collectionId false = true)
  /\ Forall (fun delivery =>
               eventName delivery = "document-deleted"
               /\ getProp "documentId" (payload delivery) = JStr documentId
               /\ getProp "data" (payload delivery) = doc_data existingDoc)
       (emitted (deleteDocument stk (Some docRef) (Some (run trace ∅))
                   collectionId documentId)).
Proof.
  intros Hget Hex Hdel. unfold deleteDocument.
  rewrite Hget, Hex, Hdel. cbn [negb emitted emitChange].
  split; [rewrite recipients_emitTo; apply NoDup_elements|].
  split.
  - intros c. rewrite elem_of_recipients, subscribed_run, members_empty.
    rewrite (bool_decide_eq_false_2 (c ∈ (∅ : gset string))) by set_solver.
    reflexivity.
  - unfold emitTo. apply Forall_forall. intros delivery Hin.
    apply list_elem_of_fmap in Hin as (sid & -> & _). repeat split; reflexivity.
Qed.

Lemma delete_notifies_subscribers_witness :
  map recipient
    (emitted (deleteDocument ""
                (Some (mkDocRef (Returns (mkSnapshot true "u1" (JStr "old") JNull JNull JNull))
                         (Returns tt) (Returns missingSnapshot)))
                (Some (run [ ("A", subscribe_to_collection "users");
                             ("B", subscribe_to_collection "posts") ] ∅))
                "users" "u1")) = [ "A" ]
  /\ subscribedAfter [ ("A", subscribe_to_collection "users");
                      ("B", subscribe_to_collection "posts") ] "A" "users" false = true.
Proof.
  split; [vm_compute; reflexivity|].
  destruct (delete_notifies_subscribers ""
              (mkDocRef (Returns (mkSnapshot true "u1" (JStr "old") JNull JNull JNull))
                 (Returns tt) (Returns missingSnapshot))
              [ ("A", subscribe_to_collection "users");
                ("B", subscribe_to_collection "posts") ]
              "users" "u1" (mkSnapshot true "u1" (JStr "old") JNull JNull JNull)
              eq_refl eq_refl eq_refl) as (_ & Hiff & _).
  apply Hiff. vm_compute. left.
Defined.

(** What the error boundary does with an operational error of status
    500. *)
Lemma errorHandler_operational_500 env stk now req error :
  isOperational error = true ->
  statusCode error = Some 500 ->
  errorHandler env stk now error req false
  = Ok (Some LogError, Responded 500 (responseBody env now error error req))
  /\ getProp "code" (getProp "error" (responseBody env now error error req))
     = codeVal (code error)
  /\ getProp "message" (getProp "error" (responseBody env now error error req))
     = JStr (message error).
Proof.
  intros Hop Hstatus. unfold errorHandler.
  rewrite (formatError_operational env stk error Hop). cbn [bind].
  unfold logSeverity, statusOr500. rewrite Hstatus. cbn.
  repeat split; reflexivity.
Qed.

(** Before the store is initialised [getDb()] throws outside every
    handler's [try]. Whenever the get, update, delete, batch or stats
    handler runs then, it makes no store call, emits and commits
    nothing, and rejects with the plain error, unwrapped;
    [errorHandler] answers that error as the generic 500, its message
    hidden in production. *)
Theorem uninitialised_store_is_500 env stk now req io collectionId documentId data operations
    invalidPath invalidWrite includeMetadata :
  Forall (fun handled =>
            asyncHandler handled = Next (Some (notInitialized stk)))
    [ getDocument stk Uninitialized collectionId documentId includeMetadata;
      response (updateDocument stk None io collectionId documentId data);
      response (deleteDocument stk None io collectionId documentId);
      b_response (batchOperations stk invalidPath invalidWrite None operations);
      getStats stk None ]
  /\ (exists body,
        errorHandler env stk now (notInitialized stk) req false
        = Ok (Some LogError, Responded 500 body)
        /\ getProp "code" (getProp "error" body) = JStr "internal-server-error"
        /\ getProp "message" (getProp "error" body)
           = JStr (if production env then "Internal server error"
                   else "Firestore not initialized. Call initializeFirebase() first."))
  /\ calls (updateDocument stk None io collectionId documentId data) = []
  /\ emitted (updateDocument stk None io collectionId documentId data) = []
  /\ calls (deleteDocument stk None io collectionId documentId) = []
  /\ emitted (deleteDocument stk None io collectionId documentId) = []
  /\ b_commits (batchOperations stk invalidPath invalidWrite None operations) = [].
Proof.
  split; [repeat constructor|].
  split; [|repeat split; reflexivity].
  unfold errorHandler, formatError. eexists. split; [reflexivity|].
  split; reflexivity.
Qed.

Lemma queueOperations_missing_data stk invalidPath invalidWrite operations operation :
  In operation operations ->
  (getProp "type" operation = JStr "set" \/ getProp "type" operation = JStr "update") ->
  truthy (getProp "data" operation) = false ->
  forall batch results,
  exists fault, queueOperations stk invalidPath invalidWrite operations batch results = Throws fault.
Proof.
  intros Hin Htype Hdata.
  induction operations as [|op rest IH]; [destruct Hin|].
  intros batch results. cbn [queueOperations].
  destruct (cannotDestructure stk op); [eauto|].
  destruct (invalidPath _ _); [eauto|].
  destruct Hin as [-> | Hin].
  - destruct Htype as [-> | ->]; rewrite Hdata; cbn; eauto.
  - destruct (getProp "type" op); try (apply IH; exact Hin).
    case_conditions; try destruct (invalidWrite _); eauto.
Qed.

(** The handler of [POST /batch]: if any operation is a [set] or an
    [update] without data, nothing is committed and the handler rejects
    with an operational 500 "firestore-batch-error", which
    [errorHandler] answers as such: the 400 "missing-data" error is
    caught by the handler's own [catch] and never leaves it. *)
Theorem batch_without_data_commits_nothing env stk now req invalidPath invalidWrite commit
    operations operation :
  In operation operations ->
  getProp "type" operation = JStr "set" \/ getProp "type" operation = JStr "update" ->
  truthy (getProp "data" operation) = false ->
  b_commits (batchOperations stk invalidPath invalidWrite (Some commit) operations) = []
  /\ exists error body,
       asyncHandler
         (b_response (batchOperations stk invalidPath invalidWrite (Some commit) operations))
       = Next (Some error)
       /\ errorHandler env stk now error req false = Ok (Some LogError, Responded 500 body)
       /\ getProp "code" (getProp "error" body) = JStr "firestore-batch-error"
       /\ getProp "message" (getProp "error" body) = JStr "Failed to execute batch operation".
Proof.
  intros Hin Htype Hdata.
  destruct (queueOperations_missing_data stk invalidPath invalidWrite operations operation
              Hin Htype Hdata [] []) as [fault Hthrows].
  unfold batchOperations. rewrite Hthrows. cbn [b_commits b_response asyncHandler].
  split; [reflexivity|].
  eexists. eexists. split; [reflexivity|].
  apply errorHandler_operational_500; reflexivity.
Qed.

Lemma batch_without_data_commits_nothing_witness :
  b_commits (batchOperations "" (fun _ _ => None) (fun _ => None) (Some (fun _ => Returns tt))
               [ JObj [ ("type", JStr "delete"); ("collection", JStr "users");
                        ("documentId", JStr "u1") ];
                 JObj [ ("type", JStr "set"); ("collection", JStr "users");
                        ("documentId", JStr "u2") ] ]) = []
  /\ exists error body,
       asyncHandler
         (b_response (batchOperations "" (fun _ _ => None) (fun _ => None)
               (Some (fun _ => Returns tt))
               [ JObj [ ("type", JStr "delete"); ("collection", JStr "users");
                        ("documentId", JStr "u1") ];
                 JObj [ ("type", JStr "set"); ("collection", JStr "users");
                        ("documentId", JStr "u2") ] ]))
       = Next (Some error)
       /\ errorHandler None "" sampleNow error sampleRequest false
          = Ok (Some LogError, Responded 500 body)
       /\ getProp "code" (getProp "error" body) = JStr "firestore-batch-error"
       /\ getProp "message" (getProp "error" body) = JStr "Failed to execute batch operation".
Proof.
  apply (batch_without_data_commits_nothing None "" sampleNow sampleRequest
           (fun _ _ => None) (fun _ => None) (fun _ => Returns tt)
           [ JObj [ ("type", JStr "delete"); ("collection", JStr "users");
                    ("documentId", JStr "u1") ];
             JObj [ ("type", JStr "set"); ("collection", JStr "users");
                    ("documentId", JStr "u2") ] ]
           (JObj [ ("type", JStr "set"); ("collection", JStr "users");
                   ("documentId", JStr "u2") ])).
  - right. left. reflexivity.
  - left. reflexivity.
  - reflexivity.
Defined.

Lemma queueOperations_returns stk invalidPath invalidWrite operations :
  forall batch results batch' results',
  queueOperations stk invalidPath invalidWrite operations batch results = Returns (batch', results') ->
  exists queuedOps,
    results' = (results ++ map (resultEntry) queuedOps)%list
    /\ length batch' = (length batch + length queuedOps)%nat
    /\ (length queuedOps <= length operations)%nat.
Proof.
  induction operations as [|op rest IH]; intros batch results batch' results'; cbn [queueOperations].
  - intros [= <- <-]. exists []. cbn. rewrite app_nil_r. split; [reflexivity|]. lia.
  - destruct (cannotDestructure stk op); [discriminate|].
    destruct (invalidPath _ _); [discriminate|].
    assert (forall kind,
              match invalidWrite (queued kind op) with
              | Some error => Throws error
              | None =>
                  queueOperations stk invalidPath invalidWrite rest (batch ++ [ queued kind op ])
                    (results ++ [ resultEntry op ])
              end = Returns (batch', results') ->
              exists queuedOps,
                results' = (results ++ map resultEntry queuedOps)%list
                /\ length batch' = (length batch + length queuedOps)%nat
                /\ (length queuedOps <= S (length rest))%nat) as Hpush.
    { intros kind H. destruct (invalidWrite (queued kind op)); [discriminate|].
      apply IH in H as (qs & -> & Hlen & Hle).
      exists (op :: qs). cbn [map length]. rewrite <- app_assoc. cbn.
      split; [reflexivity|]. rewrite Hlen, length_app. cbn. lia. }
    assert (queueOperations stk invalidPath invalidWrite rest batch results = Returns (batch', results') ->
            exists queuedOps,
              results' = (results ++ map resultEntry queuedOps)%list
              /\ length batch' = (length batch + length queuedOps)%nat
              /\ (length queuedOps <= S (length rest))%nat) as Hskip.
    { intros H. apply IH in H as (qs & -> & Hlen & Hle). exists qs. repeat split; [exact Hlen|lia]. }
    cbn [length].
    destruct (getProp "type" op); try exact Hskip.
    case_conditions; try discriminate; first [apply Hpush | exact Hskip].
Qed.

(** [POST /batch], when it answers at all: exactly one batch was
    committed and acknowledged; the response lists one entry per queued
    write, each marked "completed", and [count] is their number, at
    most the number of operations sent. *)
Theorem batch_success_reports_commit stk invalidPath invalidWrite commit operations status body :
  b_response (batchOperations stk invalidPath invalidWrite (Some commit) operations) = Wrote status body ->
  exists batch entries,
    b_commits (batchOperations stk invalidPath invalidWrite (Some commit) operations) = [ batch ]
    /\ commit batch = Returns tt
    /\ status = 200
    /\ getProp "operations" (getProp "data" body) = JArr entries
    /\ getProp "count" (getProp "data" body) = JNum (Z.of_nat (length batch))
    /\ length entries = length batch
    /\ (length batch <= length operations)%nat
    /\ Forall (fun entry => getProp "status" entry = JStr "completed") entries.
Proof.
  unfold batchOperations.
  destruct (queueOperations stk invalidPath invalidWrite operations [] []) as [e|[batch results]] eqn:Hq;
    [discriminate|].
  destruct (commit batch) as [e|[]] eqn:Hcommit; [discriminate|].
  cbn [b_response b_commits]. intros [= <- <-].
  apply queueOperations_returns in Hq as (qs & -> & Hlen & Hle). cbn in Hlen.
  exists batch. eexists.
  split; [reflexivity|]. split; [exact Hcommit|]. split; [reflexivity|].
  split; [reflexivity|].
  cbn [app]. rewrite !length_map, Hlen.
  split; [reflexivity|]. split; [reflexivity|]. split; [exact Hle|].
  apply Forall_forall. intros entry Hin.
  apply list_elem_of_fmap in Hin as (r & -> & Hr).
  apply list_elem_of_fmap in Hr as (op & -> & _). reflexivity.
Qed.

Lemma batch_success_reports_commit_witness :
  exists batch entries,
    b_commits (batchOperations "" (fun _ _ => None) (fun _ => None) (Some (fun _ => Returns tt))
                 [ JObj [ ("type", JStr "delete"); ("collection", JStr "users");
                          ("documentId", JStr "u1") ];
                   JObj [ ("type", JStr "merge") ] ]) = [ batch ]
    /\ (fun _ : list Queued => Returns tt) batch = Returns tt
    /\ 200 = 200
    /\ getProp "operations"
         (getProp "data"
            (JObj [ ("success", JBool true);
                    ("data", JObj [ ("message", JStr "Batch operation completed successfully");
                                    ("operations",
                                     JArr [ JObj [ ("type", JStr "delete");
                                                   ("collection", JStr "users");
                                                   ("documentId", JStr "u1");
                                                   ("status", JStr "completed") ] ]);
                                    ("count", JNum 1) ]) ])) = JArr entries
    /\ getProp "count"
         (getProp "data"
            (JObj [ ("success", JBool true);
                    ("data", JObj [ ("message", JStr "Batch operation completed successfully");
                                    ("operations",
                                     JArr [ JObj [ ("type", JStr "delete");
                                                   ("collection", JStr "users");
                                                   ("documentId", JStr "u1");
                                                   ("status", JStr "completed") ] ]);
                                    ("count", JNum 1) ]) ]))
       = JNum (Z.of_nat (length batch))
    /\ length entries = length batch
    /\ (length batch <= 2)%nat
    /\ Forall (fun entry => getProp "status" entry = JStr "completed") entries.
Proof.
  apply (batch_success_reports_commit "" (fun _ _ => None) (fun _ => None)
           (fun _ => Returns tt)
           [ JObj [ ("type", JStr "delete"); ("collection", JStr "users");
                    ("documentId", JStr "u1") ];
             JObj [ ("type", JStr "merge") ] ]).
  reflexivity.
Defined.

(** [GET /stats]: once the collections are listed the route always
    answers 200, also when counting some collection fails. It reports
    the number of all collections, one entry for each of the first ten
    (a count and a sample size of at most 1000, or "Unable to count"
    with the fault's message), and a note exactly when there are more
    than ten. *)
Theorem stats_cover_first_ten stk collections :
  exists data entries,
    getStats stk (Some (Returns collections))
    = Wrote 200 (JObj [ ("success", JBool true); ("data", data) ])
    /\ getProp "collectionsCount" data = JNum (Z.of_nat (length collections))
    /\ getProp "collections" data = JArr entries
    /\ length entries = Nat.min 10 (length collections)
    /\ (getProp "note" data <> JUndefined <-> (10 < length collections)%nat)
    /\ (forall (i : nat) collection,
          (i < 10)%nat -> collections !! i = Some collection ->
          exists entry,
            entries !! i = Some entry
            /\ getProp "id" entry = JStr (col_id collection)
            /\ match col_size collection with
               | Returns size =>
                   getProp "documentCount" entry = JNum size
                   /\ exists sample, getProp "sampleSize" entry = JNum sample
                                     /\ sample <= 1000 /\ sample <= size
               | Throws fault =>
                   getProp "documentCount" entry = JStr "Unable to count"
                   /\ getProp "error" entry = JStr (message fault)
               end).
Proof.
  unfold getStats. eexists. eexists. split; [reflexivity|].
  split; [reflexivity|]. split; [reflexivity|].
  split; [rewrite length_map, length_firstn; reflexivity|].
  split.
  - cbn. destruct (Z.ltb_spec 10 (Z.of_nat (length collections))); cbn.
    + split; [intros _; lia | discriminate].
    + split; [intros H'; now destruct H' | lia].
  - intros i collection Hi Hlookup.
    exists (collectionStats collection). split.
    + rewrite list_lookup_fmap, lookup_take_lt by exact Hi. now rewrite Hlookup.
    + unfold collectionStats. destruct (col_size collection) as [fault|size].
      * repeat split; reflexivity.
      * split; [reflexivity|]. split; [reflexivity|].
        exists (Z.min size 1000). split; [reflexivity|]. lia.
Qed.

(* ===================================================================== *)
(** ** The MCP routes                                                      *)
(* ===================================================================== *)

(** [GET /prompts/:promptName] for a name that is not one of the two
    prompts: the 404 "prompt-not-found" error is thrown inside the
    handler's own [try], so the client is answered 500
    "prompt-fetch-error" with the 404's message embedded. *)
Theorem unknown_prompt_is_500 env stk crudExample bestPractices now req promptName :
  promptName <> "firestore_crud_example" ->
  promptName <> "firebase_best_practices" ->
  exists body,
    dispatch env stk now req [] (getPrompt stk crudExample bestPractices now promptName)
    = Ok (Responded 500 body)
    /\ getProp "code" (getProp "error" body) = JStr "prompt-fetch-error"
    /\ getProp "message" (getProp "error" body)
       = JStr ("Prompt fetch failed: Prompt '" +:+ promptName +:+ "' not found").
Proof.
  intros H1 H2. unfold getPrompt.
  apply String.eqb_neq in H1, H2. rewrite H1, H2.
  rewrite dispatch_rejected_operational by reflexivity.
  eexists. split; [reflexivity|]. split; reflexivity.
Qed.

Lemma unknown_prompt_is_500_witness :
  exists body,
    dispatch None "" sampleNow sampleRequest [] (getPrompt "" JNull JNull sampleNow "nothing")
    = Ok (Responded 500 body)
    /\ getProp "code" (getProp "error" body) = JStr "prompt-fetch-error"
    /\ getProp "message" (getProp "error" body)
       = JStr ("Prompt fetch failed: Prompt '" +:+ "nothing" +:+ "' not found").
Proof.
  apply (unknown_prompt_is_500 None "" JNull JNull sampleNow sampleRequest "nothing");
    discriminate.
Defined.

(** The handler of [POST /tools/:toolName] ends in a 200 or in a
    rejection that [errorHandler] answers 500, and in nothing else. An
    unknown tool runs no helper and is rejected as
    "tool-execution-error" around its own "not found" message, the 404
    error never leaving the handler; a known tool runs exactly its
    helper, whose result goes out with the 200 and whose fault is
    rejected with the fault's message after "Tool execution failed: ". *)
Theorem tool_handler_outcomes stk execute env now req toolName arguments :
  if existsb (String.eqb toolName) toolNames
  then snd (executeTool stk execute now toolName arguments) = [ toolName ]
       /\ match execute toolName
                  (match arguments with JUndefined => JObj [] | _ => arguments end) with
          | Returns result =>
              exists body,
                fst (executeTool stk execute now toolName arguments) = Wrote 200 body
                /\ getProp "result" (getProp "data" body) = result
          | Throws fault =>
              exists error body,
                asyncHandler (fst (executeTool stk execute now toolName arguments))
                = Next (Some error)
                /\ errorHandler env stk now error req false
                   = Ok (Some LogError, Responded 500 body)
                /\ getProp "code" (getProp "error" body) = JStr "tool-execution-error"
                /\ getProp "message" (getProp "error" body)
                   = JStr ("Tool execution failed: " +:+ message fault)
          end
  else snd (executeTool stk execute now toolName arguments) = []
       /\ exists error body,
            asyncHandler (fst (executeTool stk execute now toolName arguments))
            = Next (Some error)
            /\ errorHandler env stk now error req false
               = Ok (Some LogError, Responded 500 body)
            /\ getProp "code" (getProp "error" body) = JStr "tool-execution-error"
            /\ getProp "message" (getProp "error" body)
               = JStr ("Tool execution failed: Tool '" +:+ toolName +:+ "' not found").
Proof.
  unfold executeTool.
  destruct (existsb (String.eqb toolName) toolNames).
  - split; [destruct (execute toolName _); reflexivity|].
    destruct (execute toolName _) as [fault|result]; cbn [fst snd asyncHandler].
    + eexists. eexists. split; [reflexivity|].
      apply errorHandler_operational_500; reflexivity.
    + eexists. split; reflexivity.
  - cbn [fst snd asyncHandler]. split; [reflexivity|].
    eexists. eexists. split; [reflexivity|].
    apply errorHandler_operational_500; reflexivity.
Qed.

(* ===================================================================== *)
(** ** More on the room registry                                           *)
(* ===================================================================== *)

Lemma without_Some sid (sockets rest : gset string) :
  without sid sockets = Some rest -> rest <> ∅ /\ rest = sockets ∖ {[sid]}.
Proof.
  unfold without. destruct (decide (sockets ∖ {[sid]} = ∅)); [discriminate|].
  intros [= <-]. split; [assumption | reflexivity].
Qed.

Lemma tidy_step sid ev (rooms : Rooms) :
  tidy rooms -> tidy (onClientEvent sid ev rooms).
Proof.
  intros Htidy room sockets. destruct ev as [t|t|]; cbn [onClientEvent]; unfold onDisconnect.
  - unfold join. destruct (decide (collectionRoom t = room)) as [<-|Hne].
    + rewrite lookup_insert_eq. intros [= <-]. set_solver.
    + rewrite lookup_insert_ne by done. apply Htidy.
  - unfold leave. destruct (rooms !! collectionRoom t) as [s|] eqn:Hs; [|apply Htidy].
    destruct (without sid s) as [rest|] eqn:Hrest.
    + destruct (decide (collectionRoom t = room)) as [<-|Hne].
      * rewrite lookup_insert_eq. intros [= <-].
        apply (without_Some sid s rest Hrest).
      * rewrite lookup_insert_ne by done. apply Htidy.
    + destruct (decide (collectionRoom t = room)) as [<-|Hne].
      * rewrite lookup_delete_eq. discriminate.
      * rewrite lookup_delete_ne by done. apply Htidy.
  - unfold leaveAll. rewrite lookup_omap.
    destruct (rooms !! room) as [s|] eqn:Hs; cbn; [|discriminate].
    intros Hrest. apply (without_Some sid s sockets Hrest).
Qed.

Lemma tidy_run trace : tidy (run trace ∅).
Proof.
  assert (forall rooms : Rooms, tidy rooms -> tidy (run trace rooms)) as Hrun.
  { induction trace as [|[sid ev] rest IH]; intros rooms Htidy; [exact Htidy|].
    cbn [run fold_left fst snd]. apply IH, tidy_step, Htidy. }
  apply (Hrun ∅). intros r s. rewrite lookup_empty. discriminate.
Qed.

(** Topics are collected with their last subscriber: after any
    sequence of client events, the room of a collection is in the
    registry exactly while some connection is subscribed to the
    collection; it is then not empty, and its members are exactly the
    connections subscribed. *)
Theorem collection_room_lives_with_subscribers trace topic :
  (is_Some (run trace ∅ !! collectionRoom topic)
   <-> exists c, subscribedAfter trace c topic false = true)
  /\ forall sockets,
       run trace ∅ !! collectionRoom topic = Some sockets ->
       sockets <> ∅
       /\ forall c, c ∈ sockets <-> subscribedAfter trace c topic false = true.
Proof.
  assert (forall c, c ∈ members (run trace ∅) (collectionRoom topic)
                    <-> subscribedAfter trace c topic false = true) as Hmembers.
  { intros c.
    pose proof (subscribed_run trace ∅ c topic) as H.
    rewrite members_empty in H.
    rewrite (bool_decide_eq_false_2 (c ∈ (∅ : gset string))) in H by set_solver.
    rewrite <- H. symmetry. apply bool_decide_eq_true. }
  unfold members in Hmembers. split.
  - destruct (run trace ∅ !! collectionRoom topic) as [sockets|] eqn:Hroom; cbn in Hmembers.
    + split; [intros _ | eauto].
      pose proof (tidy_run trace _ _ Hroom) as Hne.
      apply set_choose_L in Hne as [c Hc]. exists c. apply Hmembers, Hc.
    + split; [intros [? [=]]|]. intros [c Hc]. apply Hmembers in Hc. set_solver.
  - intros sockets Hroom. rewrite Hroom in Hmembers. cbn in Hmembers.
    split; [exact (tidy_run trace _ _ Hroom) | exact Hmembers].
Qed.

Lemma collection_room_lives_with_subscribers_witness :
  ({[ "A" ]} : gset string) <> ∅
  /\ forall c, c ∈ ({[ "A" ]} : gset string)
               <-> subscribedAfter
                     [ ("A", subscribe_to_collection "users");
                       ("B", subscribe_to_collection "posts");
                       ("B", disconnect) ] c "users" false = true.
Proof.
  destruct (collection_room_lives_with_subscribers
              [ ("A", subscribe_to_collection "users"); ("B", subscribe_to_collection "posts");
                ("B", disconnect) ] "users") as [_ Hroom].
  apply (Hroom {[ "A" ]}). vm_compute. reflexivity.
Defined.

(** Unsubscribing from a collection the connection is not subscribed
    to changes nothing in the registry. *)
Theorem unsubscribe_without_subscription trace c topic :
  subscribedAfter trace c topic false = false ->
  run (trace ++ [ (c, unsubscribe_from_collection topic) ]) ∅ = run trace ∅.
Proof.
  intros Hnot. unfold run. rewrite fold_left_app. cbn [fold_left fst snd onClientEvent].
  change (fold_left _ trace ∅) with (run trace ∅).
  assert (c ∉ members (run trace ∅) (collectionRoom topic)) as Hout.
  { pose proof (subscribed_run trace ∅ c topic) as H.
    rewrite members_empty in H.
    rewrite (bool_decide_eq_false_2 (c ∈ (∅ : gset string))) in H by set_solver.
    rewrite Hnot in H. apply bool_decide_eq_false in H. exact H. }
  unfold leave. unfold members in Hout.
  destruct (run trace ∅ !! collectionRoom topic) as [s|] eqn:Hs; [|reflexivity].
  cbn in Hout.
  pose proof (tidy_run trace (collectionRoom topic) s Hs) as Hne.
  unfold without.
  assert (s ∖ {[c]} = s) as -> by set_solver.
  destruct (decide (s = ∅)); [contradiction|].
  apply insert_id. exact Hs.
Qed.

Lemma unsubscribe_without_subscription_witness :
  run ([ ("A", subscribe_to_collection "users") ]
       ++ [ ("B", unsubscribe_from_collection "users") ]) ∅
  = run [ ("A", subscribe_to_collection "users") ] ∅.
Proof.
  apply (unsubscribe_without_subscription [ ("A", subscribe_to_collection "users") ] "B" "users").
  reflexivity.
Defined.

Lemma without_without sid (sockets : gset string) :
  without sid sockets ≫= without sid = without sid sockets.
Proof.
  destruct (without sid sockets) as [rest|] eqn:Hrest; cbn; [|reflexivity].
  apply without_Some in Hrest as [Hne ->].
  unfold without.
  assert (sockets ∖ {[sid]} ∖ {[sid]} = sockets ∖ {[sid]}) as -> by set_solver.
  destruct (decide (sockets ∖ {[sid]} = ∅)); [contradiction | reflexivity].
Qed.

(** Closing a connection is safe to repeat: a second [disconnect] of
    the same connection leaves the registry as the first one left it,
    and subscriptions of other connections are the same before and
    after. *)
Theorem disconnect_is_idempotent (rooms : Rooms) c :
  run [ (c, disconnect); (c, disconnect) ] rooms = run [ (c, disconnect) ] rooms
  /\ forall other room,
       other <> c ->
       (other ∈ members (run [ (c, disconnect) ] rooms) room <-> other ∈ members rooms room).
Proof.
  split.
  - cbn [run fold_left fst snd onClientEvent]. unfold onDisconnect, leaveAll.
    apply map_eq. intros room. rewrite !lookup_omap.
    destruct (rooms !! room) as [sockets|]; cbn; [|reflexivity].
    apply without_without.
  - intros other room Hne. cbn [run fold_left fst snd onClientEvent]. unfold onDisconnect.
    rewrite elem_of_members_leaveAll. naive_solver.
Qed.

Lemma disconnect_is_idempotent_witness :
  "A" ∈ members (run [ ("B", disconnect) ]
                   (run [ ("A", subscribe_to_collection "users");
                          ("B", subscribe_to_collection "users") ] ∅))
          (collectionRoom "users").
Proof.
  destruct (disconnect_is_idempotent
              (run [ ("A", subscribe_to_collection "users");
                     ("B", subscribe_to_collection "users") ] ∅) "B") as [_ Hothers].
  apply (Hothers "A" (collectionRoom "users")); [discriminate|].
  apply elem_of_members_join. right. apply elem_of_members_join. left. split; reflexivity.
Defined.

(** Every subscriber gets an event once: a connection subscribed to the
    collection at the moment of the emit appears exactly once among the
    recipients, and a connection that is not subscribed does not appear. *)
Theorem subscribers_receive_exactly_once trace topic eventName body c :
  count_occ string_dec
    (map recipient (emitTo (run trace ∅) (collectionRoom topic) eventName body)) c
  = if subscribedAfter trace c topic false then 1%nat else 0%nat.
Proof.
  pose proof (subscribed_run trace ∅ c topic) as H.
  rewrite members_empty in H.
  rewrite (bool_decide_eq_false_2 (c ∈ (∅ : gset string))) in H by set_solver.
  rewrite <- H. rewrite recipients_emitTo.
  destruct (bool_decide (c ∈ members (run trace ∅) (collectionRoom topic))) eqn:Hc.
  - apply bool_decide_eq_true in Hc.
    apply NoDup_count_occ'.
    + apply NoDup_ListNoDup, NoDup_elements.
    + apply list_elem_of_In, elem_of_elements, Hc.
  - apply bool_decide_eq_false in Hc.
    apply count_occ_not_In. intros Hin. apply Hc.
    apply elem_of_elements, list_elem_of_In, Hin.
Qed.
